(** * The timed exam-taking session of the online exam portal

    A shallow embedding of [src/pages/ExamPanel.tsx] (the [ExamPanel]
    component: countdown timer, answer list, local-storage autosave and the
    submit mutation) and of [logout] in [src/lib/auth-context.tsx].

    The component is a React function component.  Its state hooks become the
    fields of [State]; every event handler runs against the values of the
    render in which it was created, and the browser delivers one event at a
    time, re-rendering in between.  One [step] is therefore "run the handler,
    re-render, run the effects whose dependencies changed".

    The [setInterval] callback of the timer effect is created once, by the
    render in which [examPaper] arrived (the effect's dependency list is
    [[examPaper]]).  The [handleSubmit] it calls is the one of that render,
    so it reads that render's [isSubmitting] and [answers].  The live
    interval is modelled together with this captured [Scope].  The paper
    arrives either after the first commit ([start]) or, when the query
    cache already holds it, with the first render ([startCached]). *)

From Stdlib Require Import ZArith Lia Ascii DecimalString DecimalZ.
From stdpp Require Import gmap strings list fin_maps.

Local Open Scope Z_scope.

(** ** Data model *)

Record Answer := mkAnswer {
  questionIndex : nat;
  selectedOption : string;
  question : string
}.

Inductive QuestionType := mcq | subjective.

Record Question := mkQuestion {
  q_id : string;
  q_type : QuestionType;
  q_question : string;
  q_options : option (list string);
  q_marks : Z
}.

Record ExamPaper := mkExamPaper {
  paper_id : string;
  paper_title : string;
  duration : Z;
  totalMarks : Z;
  questions : list Question
}.

(** What the component receives from its surroundings: the route parameter
    [id], whether the auth context holds a [user] and a [token], and the
    paper the query resolves to. *)
Record Env := mkEnv {
  route_id : string;
  user : bool;
  token : bool;
  examPaper : ExamPaper
}.

(** One entry of the [answers] array of the request body. *)
Record SubmittedAnswer := mkSubmittedAnswer {
  sa_questionIndex : nat;
  sa_selectedOption : string
}.

(** The argument of [submitMutation.mutate]; dates are epoch milliseconds. *)
Record Submission := mkSubmission {
  s_examPaper : string;
  s_answers : list SubmittedAnswer;
  s_startTime : Z;
  s_endTime : Z;
  s_isSubmitted : bool
}.

(** [error.response]: the HTTP status and [data.message] when present. *)
Record ErrorResponse := mkErrorResponse {
  status : Z;
  message : option string
}.

(** ** The side-store

    [localStorage] maps string keys to strings.  A stored string is
    represented by the value it encodes, one constructor per encoder the
    sources use; reading a key back with [JSON.parse] or [parseInt] yields
    the value that was written there. *)
Inductive StoreVal :=
| VAnswers (l : list Answer)   (* JSON.stringify(answers) *)
| VIndex (i : nat)             (* currentQuestionIndex.toString() *)
| VSeconds (s : Z)             (* duration.toString() *)
| VDate (ms : Z)               (* startTime.toISOString() *)
| VText (s : string).          (* anything else: token, user *)

Definition examKey (id suffix : string) : string := "exam_" +:+ id +:+ suffix.

Definition answersKey (env : Env) : string := examKey (route_id env) "_answers".
Definition questionIndexKey (env : Env) : string := examKey (route_id env) "_questionIndex".
Definition timeLeftKey (env : Env) : string := examKey (route_id env) "_timeLeft".
Definition startTimeKey (env : Env) : string := examKey (route_id env) "_startTime".

(** ** What the user and the network can observe *)

Inductive ToastVariant := variant_default | variant_destructive.

Record Toast := mkToast {
  toast_title : string;
  toast_description : string;
  toast_variant : ToastVariant
}.

(** The trace records, oldest first, what the component shows and sends. *)
Inductive Obs :=
| ObsToast (t : Toast)
| ObsConfirm (reply : bool)      (* window.confirm was shown; the user's reply *)
| ObsAutoSubmit                  (* the timer called handleSubmit() *)
| ObsMutate (s : Submission).    (* submitMutation.mutate(s): a network call *)

(** Where the router is: still on the exam panel, or on another page
    (with the [state.from] return path when one was given). *)
Inductive Location :=
| ExamPanelPage
| Page (path : string) (from : option string).

(** The render scope a [handleSubmit] closure reads. *)
Record Scope := mkScope {
  sc_isSubmitting : bool;
  sc_answers : list Answer;
  sc_examPaper : bool
}.

Record State := mkState {
  timeLeft : Z;
  currentQuestionIndex : nat;
  answers : list Answer;
  isSubmitting : bool;
  startTime : Z;
  timer : option Scope;
  paperLoaded : bool;
  location : Location;
  localStorage : gmap string StoreVal;
  inFlight : list Submission;
  timeouts : list (Z * string);
  trace : list Obs
}.

Definition set_timeLeft (v : Z) (st : State) : State :=
  mkState v (currentQuestionIndex st) (answers st) (isSubmitting st)
    (startTime st) (timer st) (paperLoaded st) (location st)
    (localStorage st) (inFlight st) (timeouts st) (trace st).

Definition set_currentQuestionIndex (v : nat) (st : State) : State :=
  mkState (timeLeft st) v (answers st) (isSubmitting st)
    (startTime st) (timer st) (paperLoaded st) (location st)
    (localStorage st) (inFlight st) (timeouts st) (trace st).

Definition set_answers (v : list Answer) (st : State) : State :=
  mkState (timeLeft st) (currentQuestionIndex st) v (isSubmitting st)
    (startTime st) (timer st) (paperLoaded st) (location st)
    (localStorage st) (inFlight st) (timeouts st) (trace st).

Definition set_isSubmitting (v : bool) (st : State) : State :=
  mkState (timeLeft st) (currentQuestionIndex st) (answers st) v
    (startTime st) (timer st) (paperLoaded st) (location st)
    (localStorage st) (inFlight st) (timeouts st) (trace st).

Definition set_timer (v : option Scope) (st : State) : State :=
  mkState (timeLeft st) (currentQuestionIndex st) (answers st) (isSubmitting st)
    (startTime st) v (paperLoaded st) (location st)
    (localStorage st) (inFlight st) (timeouts st) (trace st).

Definition set_paperLoaded (v : bool) (st : State) : State :=
  mkState (timeLeft st) (currentQuestionIndex st) (answers st) (isSubmitting st)
    (startTime st) (timer st) v (location st)
    (localStorage st) (inFlight st) (timeouts st) (trace st).

Definition set_location (v : Location) (st : State) : State :=
  mkState (timeLeft st) (currentQuestionIndex st) (answers st) (isSubmitting st)
    (startTime st) (timer st) (paperLoaded st) v
    (localStorage st) (inFlight st) (timeouts st) (trace st).

Definition set_localStorage (v : gmap string StoreVal) (st : State) : State :=
  mkState (timeLeft st) (currentQuestionIndex st) (answers st) (isSubmitting st)
    (startTime st) (timer st) (paperLoaded st) (location st)
    v (inFlight st) (timeouts st) (trace st).

Definition set_inFlight (v : list Submission) (st : State) : State :=
  mkState (timeLeft st) (currentQuestionIndex st) (answers st) (isSubmitting st)
    (startTime st) (timer st) (paperLoaded st) (location st)
    (localStorage st) v (timeouts st) (trace st).

Definition set_timeouts (v : list (Z * string)) (st : State) : State :=
  mkState (timeLeft st) (currentQuestionIndex st) (answers st) (isSubmitting st)
    (startTime st) (timer st) (paperLoaded st) (location st)
    (localStorage st) (inFlight st) v (trace st).

Definition observe (o : Obs) (st : State) : State :=
  mkState (timeLeft st) (currentQuestionIndex st) (answers st) (isSubmitting st)
    (startTime st) (timer st) (paperLoaded st) (location st)
    (localStorage st) (inFlight st) (timeouts st) (trace st ++ [o]).

Definition setItem (k : string) (v : StoreVal) (st : State) : State :=
  set_localStorage (<[k := v]> (localStorage st)) st.

Definition removeItem (k : string) (st : State) : State :=
  set_localStorage (delete k (localStorage st)) st.

Definition mounted (st : State) : bool :=
  match location st with ExamPanelPage => true | Page _ _ => false end.

Definition scope_of (st : State) : Scope :=
  mkScope (isSubmitting st) (answers st) (paperLoaded st).

Definition panelPath (env : Env) : string := "/exam-panel/" +:+ route_id env.

(** ** Handlers of [ExamPanel] *)

(** Cleanup of the timer effect (lines 149-153).  It exists only when the
    effect body ran, that is when the paper arrived with a truthy duration. *)
Definition timerCleanup (env : Env) (st : State) : State :=
  if paperLoaded st && negb (duration (examPaper env) =? 0) then
    removeItem (startTimeKey env)
      (removeItem (timeLeftKey env) (set_timer None st))
  else st.

(** [navigate(path, {state: {from}})]: leaving the panel unmounts the
    component, which runs the cleanup. *)
Definition navigate (env : Env) (path : string) (from : option string)
    (st : State) : State :=
  let st' := set_location (Page path from) st in
  if mounted st then timerCleanup env st' else st'.

(** The save effect (lines 171-174), run after a render in which [answers]
    or [currentQuestionIndex] changed. *)
Definition saveEffect (env : Env) (st : State) : State :=
  setItem (questionIndexKey env) (VIndex (currentQuestionIndex st))
    (setItem (answersKey env) (VAnswers (answers st)) st).

(** [Array.prototype.findIndex]; [None] stands for [-1]. *)
Fixpoint findIndex {A} (p : A → bool) (l : list A) : option nat :=
  match l with
  | [] => None
  | x :: l' => if p x then Some 0%nat else S <$> findIndex p l'
  end.

(** [Array.prototype.find]. *)
Fixpoint find {A} (p : A → bool) (l : list A) : option A :=
  match l with
  | [] => None
  | x :: l' => if p x then Some x else find p l'
  end.

(** [answers.find(a => a.questionIndex === i)?.selectedOption || ''], the
    value shown in the radio group and the text area (lines 329, 341). *)
Definition getAnswer (l : list Answer) (i : nat) : string :=
  match find (λ a, Nat.eqb (questionIndex a) i) l with
  | Some a =>
      match selectedOption a with
      | EmptyString => EmptyString
      | s => s
      end
  | None => EmptyString
  end.

(** [handleAnswerChange] (lines 185-203).  [None]: reading [._id] of a
    question that does not exist throws, and no state is set. *)
Definition handleAnswerChange (env : Env) (answer : string) (st : State)
    : option State :=
  let cur := currentQuestionIndex st in
  let existingAnswerIndex :=
    findIndex (λ a, Nat.eqb (questionIndex a) cur) (answers st) in
  match existingAnswerIndex with
  | Some i =>
      q ← questions (examPaper env) !! cur;
      Some (set_answers (<[i := mkAnswer cur answer (q_id q)]> (answers st)) st)
  | None =>
      q ← questions (examPaper env) !! cur;
      Some (set_answers (answers st ++ [mkAnswer cur answer (q_id q)]) st)
  end.

(** [handleNext] and [handlePrevious] (lines 206-216); the comparison with
    [length - 1] is on JavaScript numbers. *)
Definition handleNext (env : Env) (st : State) : State :=
  if Z.of_nat (currentQuestionIndex st)
       <? Z.of_nat (length (questions (examPaper env))) - 1
  then set_currentQuestionIndex (currentQuestionIndex st + 1)%nat st
  else st.

Definition handlePrevious (st : State) : State :=
  if (0 <? currentQuestionIndex st)%nat
  then set_currentQuestionIndex (currentQuestionIndex st - 1)%nat st
  else st.

Definition isLastQuestion (env : Env) (st : State) : bool :=
  Z.of_nat (currentQuestionIndex st)
    =? Z.of_nat (length (questions (examPaper env))) - 1.

Definition payload (env : Env) (sc : Scope) (st : State) (now : Z) : Submission :=
  mkSubmission (paper_id (examPaper env))
    (map (λ a, mkSubmittedAnswer (questionIndex a) (selectedOption a))
       (sc_answers sc))
    (startTime st) now true.

(** [handleSubmit] (lines 219-245), run in the render scope [sc].  [reply]
    is what the user answers should [window.confirm] be shown; [now] is the
    value of [new Date()]. *)
Definition handleSubmit (env : Env) (sc : Scope) (reply : bool) (now : Z)
    (st : State) : State :=
  if sc_isSubmitting sc then st
  else if negb (user env) || negb (sc_examPaper sc) then
    navigate env "/login" (Some (panelPath env)) st
  else
    let unanswered :=
      (length (sc_answers sc) <? length (questions (examPaper env)))%nat in
    let st1 := if unanswered then observe (ObsConfirm reply) st else st in
    if unanswered && negb reply then st1
    else
      let s := payload env sc st now in
      observe (ObsMutate s)
        (set_inFlight (inFlight st1 ++ [s]) (set_isSubmitting true st1)).

(** The interval callback (lines 134-143). *)
Definition tick (env : Env) (reply : bool) (now : Z) (st : State) : State :=
  match timer st with
  | None => st
  | Some sc =>
      if timeLeft st <=? 1 then
        set_timeLeft 0
          (handleSubmit env sc reply now
             (observe ObsAutoSubmit (set_timer None st)))
      else set_timeLeft (timeLeft st - 1) st
  end.

(** [submitMutation.onSuccess] (lines 93-104). *)
Definition onSuccess (env : Env) (st : State) : State :=
  navigate env "/dashboard" None
    (removeItem (startTimeKey env)
      (removeItem (timeLeftKey env)
        (removeItem (questionIndexKey env)
          (removeItem (answersKey env)
            (observe
               (ObsToast (mkToast "Success" "Exam submitted successfully!"
                            variant_default)) st))))).

Definition statusIs (err : option ErrorResponse) (n : Z) : bool :=
  match err with
  | Some r => status r =? n
  | None => false
  end.

Definition messageOf (err : option ErrorResponse) : option string :=
  r ← err; message r.

(** [m || fallback] on an optional string: the empty string is falsy. *)
Definition orElse (m : option string) (fallback : string) : string :=
  match m with
  | Some (String c s) => String c s
  | _ => fallback
  end.

Definition alreadySubmitted : string := "You have already submitted this exam".

(** [submitMutation.onError] (lines 105-125). *)
Definition onError (env : Env) (err : option ErrorResponse) (st : State)
    : State :=
  let st1 := set_isSubmitting false st in
  if statusIs err 401 then
    navigate env "/login" (Some (panelPath env)) st1
  else if statusIs err 400
          && bool_decide (messageOf err = Some alreadySubmitted) then
    set_timeouts (timeouts st1 ++ [(2000, "/dashboard")])
      (observe
         (ObsToast
            (mkToast "Already Submitted"
               "You have already submitted this exam. Redirecting to dashboard..."
               variant_default)) st1)
  else
    observe
      (ObsToast
         (mkToast "Error"
            (orElse (messageOf err) "Failed to submit exam. Please try again.")
            variant_destructive)) st1.

(** ** Mounting and the arrival of the paper *)

(** First render and its effects: the redirect when not authenticated
    (lines 58-62), the restore effect (lines 158-168) and the save effect.
    The restore effect reads the store before the save effect of the same
    commit overwrites it; after the re-render the save effect writes the
    restored values back.  Only what the panel itself writes under its two
    keys is restored.  [now] is [new Date()] of the [startTime] hook. *)
Definition mount (env : Env) (now : Z) (ls : gmap string StoreVal) : State :=
  let restoredAnswers :=
    match ls !! answersKey env with
    | Some (VAnswers l) => l
    | _ => []
    end in
  let restoredIndex :=
    match ls !! questionIndexKey env with
    | Some (VIndex i) => i
    | _ => 0%nat
    end in
  saveEffect env
    (mkState 0 restoredIndex restoredAnswers false now None false
       (if user env && token env then ExamPanelPage
        else Page "/login" (Some (panelPath env)))
       ls [] [] []).

(** The query resolves: the render with [examPaper] defined, then the timer
    effect (lines 129-155). *)
Definition examLoaded (env : Env) (st : State) : State :=
  if mounted st && negb (paperLoaded st) then
    let st1 := set_paperLoaded true st in
    if duration (examPaper env) =? 0 then st1
    else
      let d := duration (examPaper env) * 60 in
      setItem (startTimeKey env) (VDate (startTime st1))
        (setItem (timeLeftKey env) (VSeconds d)
          (set_timer (Some (scope_of st1)) (set_timeLeft d st1)))
  else st.

(** A session whose paper is fetched: the component mounts without it and
    the query resolves after the first commit, so the render in which the
    paper arrives already has the restored answers.  The mount that finds
    the paper in the query cache is [startCached]. *)
Definition start (env : Env) (now : Z) (ls : gmap string StoreVal) : State :=
  examLoaded env (mount env now ls).

(** ** Events of a running session *)

(** [reply] is what the user answers if the event leads to a
    [window.confirm]. *)
Inductive Event :=
| Tick (reply : bool)                      (* the interval fires *)
| AnswerChange (answer : string)           (* radio group or text area *)
| Next
| Previous
| ClickSubmit (reply : bool)
| SubmitSucceeded                          (* a request is acknowledged *)
| SubmitFailed (err : option ErrorResponse)
| TimeoutFired.                            (* a scheduled redirect is due *)

(** One event, delivered at wall-clock time [now].  The question card and
    its buttons exist only while the panel is mounted with the paper loaded;
    the submit button is rendered on the last question and is disabled
    while [isSubmitting] (lines 362-370).  A cleared interval does not fire.
    The callbacks given to [useMutation] belong to the request and run when
    it settles. *)
Definition step (env : Env) (now : Z) (e : Event) (st : State) : State :=
  let interactive := mounted st && paperLoaded st in
  match e with
  | Tick reply => tick env reply now st
  | AnswerChange answer =>
      if interactive then
        match handleAnswerChange env answer st with
        | Some st' => saveEffect env st'
        | None => st
        end
      else st
  | Next => if interactive then saveEffect env (handleNext env st) else st
  | Previous => if interactive then saveEffect env (handlePrevious st) else st
  | ClickSubmit reply =>
      if interactive && isLastQuestion env st && negb (isSubmitting st)
      then handleSubmit env (scope_of st) reply now st
      else st
  | SubmitSucceeded =>
      match inFlight st with
      | [] => st
      | _ :: rest => onSuccess env (set_inFlight rest st)
      end
  | SubmitFailed err =>
      match inFlight st with
      | [] => st
      | _ :: rest => onError env err (set_inFlight rest st)
      end
  | TimeoutFired =>
      match timeouts st with
      | [] => st
      | (_, path) :: rest => navigate env path None (set_timeouts rest st)
      end
  end.

Definition run (env : Env) (evs : list (Z * Event)) (st : State) : State :=
  foldl (λ s ev, step env ev.1 ev.2 s) st evs.

(** ** [logout] of the auth context (lines 142-169) *)

(** [s.startsWith(p)]. *)
Fixpoint startsWith (s p : string) {struct p} : bool :=
  match p with
  | EmptyString => true
  | String c p' =>
      match s with
      | EmptyString => false
      | String d s' => bool_decide (c = d) && startsWith s' p'
      end
  end.

(** [s.includes(p)]. *)
Fixpoint includes (s p : string) : bool :=
  startsWith s p
  || match s with
     | EmptyString => false
     | String _ s' => includes s' p
     end.

(** The storage after [logout] and the login page it redirects to;
    [Object.keys(localStorage)] is the key list taken before the loop. *)
Definition logout (currentPath : string) (ls : gmap string StoreVal)
    : gmap string StoreVal * string :=
  let ls1 := delete "token" (delete "user" ls) in
  let ls2 :=
    foldl (λ m key, if startsWith key "exam_" then delete key m else m)
      ls1 (map_to_list ls1).*1 in
  let loginPath :=
    if includes currentPath "/admin" then "/admin/login"
    else if includes currentPath "/faculty" then "/faculty/login"
    else "/login" in
  (ls2, loginPath).


(** The four suffixes under which the panel stores an attempt. *)
Definition attemptSuffixes : list string :=
  ["_answers"; "_questionIndex"; "_timeLeft"; "_startTime"].

(** ** Vocabulary of the specification *)

(** The [setAnswer(questionIndex, value)] call an event amounts to: an
    answer change that reaches [handleAnswerChange] and sets an answer, for
    the question on display. *)
Definition setAnswerCall (env : Env) (e : Event) (st : State)
    : list (nat * string) :=
  match e with
  | AnswerChange v =>
      if mounted st && paperLoaded st then
        match handleAnswerChange env v st with
        | Some _ => [(currentQuestionIndex st, v)]
        | None => []
        end
      else []
  | _ => []
  end.

(** The calls of a run, oldest first. *)
Fixpoint setAnswerCalls (env : Env) (evs : list (Z * Event)) (st : State)
    : list (nat * string) :=
  match evs with
  | [] => []
  | ev :: evs' =>
      setAnswerCall env ev.2 st
        ++ setAnswerCalls env evs' (step env ev.1 ev.2 st)
  end.

(** The value most recently set for index [i], or [dflt] when none was. *)
Definition lastSet (dflt : string) (i : nat) (calls : list (nat * string))
    : string :=
  foldl (λ acc c, if Nat.eqb c.1 i then c.2 else acc) dflt calls.

(** ** Sample inputs *)

Definition sampleQuestion (n : string) : Question :=
  mkQuestion n mcq "Pick one" (Some ["A"; "B"; "C"]) 5.

(** One question, one minute. *)
Definition paper1 : ExamPaper :=
  mkExamPaper "p1" "Quiz" 1 5 [sampleQuestion "q0"].

Definition env1 : Env := mkEnv "e1" true true paper1.

(** Three questions, ten minutes. *)
Definition paper3 : ExamPaper :=
  mkExamPaper "p3" "Midterm" 10 15
    [sampleQuestion "q0"; sampleQuestion "q1"; sampleQuestion "q2"].

Definition env3 : Env := mkEnv "e3" true true paper3.

(** One free-text question, one minute. *)
Definition paperEssay : ExamPaper :=
  mkExamPaper "p2" "Essay" 1 5 [mkQuestion "q0" subjective "Explain" None 5].

Definition envEssay : Env := mkEnv "e4" true true paperEssay.

(** The text area receives a character, then is emptied again. *)
Definition typedThenCleared : list (Z * Event) :=
  [(1, AnswerChange "x"); (2, AnswerChange EmptyString)].

Definition ticks (n : nat) (reply : bool) : list (Z * Event) :=
  replicate n (0, Tick reply).

(** ** Invariants of a session *)

Definition indicesOf (l : list Answer) : list nat := questionIndex <$> l.

(** A request body carries at most one answer per question index. *)
Definition obsOk (o : Obs) : Prop :=
  match o with
  | ObsMutate s => NoDup (sa_questionIndex <$> s_answers s)
  | _ => True
  end.

Definition scopeOk (o : option Scope) : Prop :=
  match o with
  | Some sc => NoDup (indicesOf (sc_answers sc))
  | None => True
  end.

(** An answer list as the panel writes it: one entry per question index at
    most, every index that of a question of the paper. *)
Definition wellFormedAnswers (env : Env) (l : list Answer) : Prop :=
  NoDup (indicesOf l)
  ∧ Forall (λ i, (i < length (questions (examPaper env)))%nat) (indicesOf l).

Definition sessionInv (env : Env) (st : State) : Prop :=
  NoDup (indicesOf (answers st))
  ∧ Forall (λ i, (i < length (questions (examPaper env)))%nat)
      (indicesOf (answers st))
  ∧ scopeOk (timer st)
  ∧ Forall obsOk (trace st).

(** The states of the specification's session controller, read off the
    component: it has left the panel, is waiting for the paper, has a
    submission under way ([isSubmitting]), or is taking answers. *)
Inductive SessionState := session_left | loading | submitting | active.

Definition sessionState (st : State) : SessionState :=
  if negb (mounted st) then session_left
  else if negb (paperLoaded st) then loading
  else if isSubmitting st then submitting
  else active.

(** How often the timer has called [handleSubmit()] so far. *)
Fixpoint countAutoSubmit (tr : list Obs) : nat :=
  match tr with
  | [] => 0
  | ObsAutoSubmit :: tr' => S (countAutoSubmit tr')
  | _ :: tr' => countAutoSubmit tr'
  end.

(** How many interval callbacks a run delivers. *)
Fixpoint countTicks (evs : list (Z * Event)) : nat :=
  match evs with
  | [] => 0
  | (_, Tick _) :: evs' => S (countTicks evs')
  | _ :: evs' => countTicks evs'
  end.

Definition tickOf (e : Event) : Z :=
  match e with
  | Tick _ => 1
  | _ => 0
  end.

(** What a run of a started session keeps true of its timer, [k] ticks
    after the start of a paper of [d] seconds. *)
Definition timerInv (d k : Z) (st : State) : Prop :=
  0 ≤ timeLeft st
  ∧ (countAutoSubmit (trace st) ≤ 1)%nat
  ∧ (timer st = None
     ∨ (countAutoSubmit (trace st) = 0%nat ∧ 1 ≤ timeLeft st
        ∧ mounted st = true ∧ paperLoaded st = true))
  ∧ (countAutoSubmit (trace st) = 1%nat → timeLeft st = 0 ∧ timer st = None)
  ∧ (mounted st = true →
     timeLeft st = Z.max 0 (d - k)
     ∧ (timer st = None ↔ d ≤ k)
     ∧ countAutoSubmit (trace st) = if d <=? k then 1%nat else 0%nat).

(** Two of three questions answered, the third on display. *)
Definition twoOfThree : list (Z * Event) :=
  [(1, AnswerChange "A"); (2, Next); (3, AnswerChange "B"); (4, Next)].

(** A store holding two attempts and the login data. *)
Definition sampleStore : gmap string StoreVal :=
  <["token" := VText "t0"]>
    (<["exam_e2_answers" := VAnswers [mkAnswer 0 "A" "x0"]]>
       (<["exam_e1_startTime" := VDate 0]>
          (<["exam_e1_timeLeft" := VSeconds 60]>
             (<["exam_e1_questionIndex" := VIndex 0]>
                (<["exam_e1_answers" := VAnswers [mkAnswer 0 "B" "q0"]]> ∅))))).

Definition sampleState (ls : gmap string StoreVal) : State :=
  mkState 30 0 [] true 0 None true ExamPanelPage ls [] [] [].

(** A failure the component identifies as a duplicate submission: the test
    of the second branch of [onError]. *)
Definition isDuplicateSubmission (err : option ErrorResponse) : bool :=
  statusIs err 400 && bool_decide (messageOf err = Some alreadySubmitted).

(** The user is still on the panel and the last thing shown is a
    destructive toast. *)
Definition staysWithErrorNotice (st : State) : Prop :=
  location st = ExamPanelPage
  ∧ ∃ t, last (trace st) = Some (ObsToast t)
         ∧ toast_variant t = variant_destructive.

(** The side-store holds a start timestamp of this attempt that lies at
    least the whole duration before [now] (milliseconds). *)
Definition expiredOnResume (env : Env) (now : Z) (ls : gmap string StoreVal)
    : Prop :=
  ∃ t0, ls !! startTimeKey env = Some (VDate t0)
        ∧ duration (examPaper env) * 60 * 1000 ≤ now - t0.

(** The remaining whole seconds a timer would show that recomputes them on
    every tick from an absolute deadline, as the specification words it:
    the deadline is the start plus the duration, all in milliseconds. *)
Definition remainingFromDeadline (startMs durationMin nowMs : Z) : Z :=
  Z.max 0 ((startMs + durationMin * 60 * 1000 - nowMs) / 1000).

(** One question answered and submitted, the request still under way. *)
Definition submittedOnce : State :=
  run env1 [(1, AnswerChange "A"); (2, ClickSubmit true)] (start env1 0 ∅).

Definition unauthorized : option ErrorResponse :=
  Some (mkErrorResponse 401 None).

Definition duplicate : option ErrorResponse :=
  Some (mkErrorResponse 400 (Some alreadySubmitted)).

(** ** Proof automation *)

Ltac reduce_handlers :=
  cbv beta iota zeta delta
    [step tick handleSubmit onSuccess onError navigate timerCleanup
     saveEffect handleNext handlePrevious examLoaded mount start setItem
     removeItem observe scope_of mounted payload set_timeLeft
     set_currentQuestionIndex set_answers set_isSubmitting set_timer
     set_paperLoaded set_location set_localStorage set_inFlight set_timeouts
     timeLeft currentQuestionIndex answers isSubmitting startTime timer
     paperLoaded location localStorage inFlight timeouts trace
     sc_isSubmitting sc_answers sc_examPaper] in *.

(** Handlers are reduced on an explicit record, so that the nested setters
    collapse to one constructor per branch. *)
Ltac split_branch :=
  match goal with
  | |- context [match ?x with _ => _ end] => is_var x; destruct x eqn:?
  | |- context [if ?c then _ else _] =>
      lazymatch type of c with bool => destruct c eqn:? end
  end.

Ltac step_cases :=
  repeat match goal with
         | st : State |- _ => destruct st
         | sc : Scope |- _ => destruct sc
         end;
  reduce_handlers; repeat (split_branch; reduce_handlers); simplify_eq/=.

Ltac timer_arith :=
  simpl in *;
  repeat match goal with
         | H : _ ∧ _ |- _ => destruct H
         | H : (_ <=? _) = true |- _ => apply Z.leb_le in H
         | H : (_ <=? _) = false |- _ => apply Z.leb_gt in H
         | |- context [_ <=? _] => case_match
         | H : context [_ <=? _] |- _ => case_match
         | H : context [?a =? ?b] |- _ => destruct (Z.eqb_spec a b)
         | H : ?b = true |- _ => is_var b; subst b
         | H : ?b = false |- _ => is_var b; subst b
         end;
  simpl in *; try (intuition (subst; simpl in *; try congruence; try lia)).

(** * Further coverage *)

(** ** Autosave *)

(** The side-store holds the answer list and the question index of the
    state. *)
Definition storeMirrors (env : Env) (st : State) : Prop :=
  localStorage st !! answersKey env = Some (VAnswers (answers st))
  ∧ localStorage st !! questionIndexKey env
    = Some (VIndex (currentQuestionIndex st)).

(** The effect on query errors (lines 75-88): a 401 leads to the login
    page, any other failure shows its message and leads to the exam list.
    It can only run while the panel waits for the paper. *)
Definition queryFailed (env : Env) (err : option ErrorResponse) (st : State)
    : State :=
  if mounted st && negb (paperLoaded st) then
    if statusIs err 401 then
      navigate env "/login" (Some (panelPath env)) st
    else
      navigate env "/exams" None
        (observe
           (ObsToast
              (mkToast "Error"
                 (orElse (messageOf err) "Failed to load exam paper")
                 variant_destructive)) st)
  else st.

(** Four times Next on three questions, then Previous. *)
Definition pastTheEnd : list (Z * Event) :=
  [(1, Next); (2, Next); (3, Next); (4, Next); (5, Previous)].

(** ** The clock

    [timeLeft] is a whole number of seconds. *)

(** [n.toString()] of a whole number. *)
Definition toString (z : Z) : string := NilZero.string_of_int (Z.to_int z).

(** [s.padStart(target, fill)] for a fill string of one character. *)
Definition padStart (target : nat) (fill : Ascii.ascii) (s : string)
    : string :=
  String.string_of_list_ascii (replicate (target - String.length s) fill)
  +:+ s.

(** [formatTime] (lines 177-182): [Math.floor] of a quotient is [Z.div],
    [%] is the remainder with the sign of the dividend. *)
Definition formatTime (seconds : Z) : string :=
  let hrs := seconds / 3600 in
  let mins := Z.rem seconds 3600 / 60 in
  let secs := Z.rem seconds 60 in
  padStart 2 "0"%char (toString hrs) +:+ ":"
  +:+ padStart 2 "0"%char (toString mins) +:+ ":"
  +:+ padStart 2 "0"%char (toString secs).

(** The decimal digit [d] and the two-digit rendering of [n]. *)
Definition digit (d : Z) : Ascii.ascii := Ascii.ascii_of_N (48 + Z.to_N d).

Definition twoDigits (n : Z) : string :=
  String (digit (n / 10)) (String (digit (n mod 10)) EmptyString).

(** ** The auth context ([src/lib/auth-context.tsx])

    Here [localStorage] is the map from keys to strings that it is.
    [JSON.parse] and [JSON.stringify] are the browser's; the provider is
    modelled for any pair of them.  [JSON_parse] is [None] where
    [JSON.parse] throws or yields a value without properties; a property
    that is absent reads as the empty string, which is as falsy. *)
Module AuthContext.

Record User := mkUser {
  _id : string;
  name : string;
  email : string;
  role : string;
  semester : option Z;
  department : option string;
  school : option string;
  specialization : option string
}.

Record AuthState := mkAuthState {
  user : option User;
  token : option string;
  isLoading : bool;
  storage : gmap string string;
  authorization : option string   (* axios.defaults.headers.common *)
}.

(** A string value is truthy when it is there and not empty. *)
Definition truthy (s : option string) : bool :=
  match s with
  | Some (String _ _) => true
  | _ => false
  end.

Definition bearer (t : string) : string := "Bearer " +:+ t.

(** The state before the first render commits its effects. *)
Definition initial (ls : gmap string string) (header : option string)
    : AuthState :=
  mkAuthState None None true ls header.

(** The three places where [initAuth] gives the session up do the same:
    remove both entries, null both states; [finally] ends the loading. *)
Definition cleared (st : AuthState) : AuthState :=
  mkAuthState None None false
    (delete "user" (delete "token" (storage st))) (authorization st).

Section WithJSON.

Variable JSON_parse : string → option User.
Variable JSON_stringify : User → string.

(** [initAuth] (lines 32-72). *)
Definition initAuth (st : AuthState) : AuthState :=
  let storedToken := storage st !! "token" in
  let storedUser := storage st !! "user" in
  if negb (truthy storedToken) || negb (truthy storedUser) then cleared st
  else
    match storedUser ≫= JSON_parse, storedToken with
    | Some userData, Some t =>
        if negb (truthy (Some (_id userData)))
           || negb (truthy (Some (role userData)))
        then cleared st
        else
          mkAuthState (Some userData) (Some t) false (storage st)
            (Some (bearer t))
    | _, _ => cleared st
    end.

(** The effect that follows [token] (lines 78-89), run with the [token]
    of its render. *)
Definition tokenEffect (tok : option string) (st : AuthState) : AuthState :=
  match tok with
  | Some (String c t) =>
      mkAuthState (user st) (token st) (isLoading st)
        (<["token" := String c t]> (storage st))
        (Some (bearer (String c t)))
  | _ =>
      mkAuthState (user st) (token st) (isLoading st)
        (delete "token" (storage st)) None
  end.

(** The re-render after a state change: the token effect runs again when
    [token] is not what it was. *)
Definition rerender (previous : option string) (st : AuthState) : AuthState :=
  if decide (token st = previous) then st else tokenEffect (token st) st.

(** Mounting the provider: the first commit runs [initAuth] and then the
    token effect of the first render, whose [token] is still null; the
    state set by [initAuth] shows in the re-render. *)
Definition mountProvider (ls : gmap string string) (header : option string)
    : AuthState :=
  rerender None (tokenEffect None (initAuth (initial ls header))).

(** The [catch] of [login] (lines 131-139). *)
Definition loginFailed (st : AuthState) : AuthState :=
  mkAuthState None None (isLoading st)
    (delete "user" (delete "token" (storage st))) None.

(** [login] (lines 110-140); [response] is what [loginUser] resolves to,
    [None] when it throws.  The boolean tells whether [login] resolves. *)
Definition login (response : option (User * string)) (st : AuthState)
    : AuthState * bool :=
  match response with
  | Some (userData, newToken) =>
      if negb (truthy (Some (_id userData)))
         || negb (truthy (Some (role userData)))
         || negb (truthy (Some newToken))
      then (rerender (token st) (loginFailed st), false)
      else
        (rerender (token st)
           (mkAuthState (Some userData) (Some newToken) (isLoading st)
              (<["token" := newToken]>
                 (<["user" := JSON_stringify userData]> (storage st)))
              (Some (bearer newToken))), true)
  | None => (rerender (token st) (loginFailed st), false)
  end.

End WithJSON.

(** A session is held in full: both states, both entries and the header. *)
Definition signedIn (st : AuthState) : Prop :=
  ∃ u t raw,
    user st = Some u ∧ token st = Some t ∧ truthy (Some t) = true
    ∧ storage st !! "token" = Some t ∧ storage st !! "user" = Some raw
    ∧ authorization st = Some (bearer t).

(** No session is held at all. *)
Definition signedOut (st : AuthState) : Prop :=
  user st = None ∧ token st = None
  ∧ storage st !! "token" = None ∧ storage st !! "user" = None
  ∧ authorization st = None.

End AuthContext.

(** ** [login] of [src/lib/api.ts] (lines 80-130) *)
Module Api.

(** [response.data]: the server may nest the user under [user], or the
    data may be the user itself; [data_self] is the data read as a user.
    An absent [token] reads as the empty string. *)
Record LoginData := mkLoginData {
  data_user : option AuthContext.User;
  data_token : string;
  data_self : AuthContext.User
}.

Record LoginResponse := mkLoginResponse {
  data : option LoginData;
  headers_authorization : option string
}.

Fixpoint dropChars (n : nat) (s : string) : string :=
  match n, s with
  | S n', String _ s' => dropChars n' s'
  | _, _ => s
  end.

(** [s.replace(p, '')]: the first occurrence of [p] is taken out. *)
Fixpoint removeFirst (s p : string) : string :=
  if startsWith s p then dropChars (String.length p) s
  else
    match s with
    | EmptyString => EmptyString
    | String c s' => String c (removeFirst s' p)
    end.

(** [a || b] on strings. *)
Definition orString (a b : string) : string :=
  match a with
  | EmptyString => b
  | _ => a
  end.

(** [login]: what it resolves to ([None] when it throws) and the
    Authorization default of the axios instance afterwards. *)
Definition login (response : LoginResponse) (defaults : option string)
    : option (AuthContext.User * string) * option string :=
  match data response with
  | None => (None, defaults)
  | Some d =>
      let flat :=
        AuthContext.truthy (Some (AuthContext._id (data_self d)))
        && AuthContext.truthy (Some (AuthContext.email (data_self d)))
        && negb (bool_decide (is_Some (data_user d))) in
      let userData := if flat then Some (data_self d) else data_user d in
      let token :=
        if flat then
          orString (data_token d)
            (from_option (λ h, removeFirst h "Bearer ") EmptyString
               (headers_authorization response))
        else data_token d in
      match userData, token with
      | Some u, String c t =>
          (Some (u, String c t), Some (AuthContext.bearer (String c t)))
      | _, _ => (None, defaults)
      end
  end.

End Api.

(** ** The exam list ([src/pages/Exams.tsx], lines 40-70) *)
Module ExamsPage.

Record Exam := mkExam {
  exam_id : string;
  status : string
}.

(** A row of the submissions query, as far as the page reads it. *)
Record SubmissionRow := mkSubmissionRow {
  sub_examPaper : string;
  sub_student : string;
  sub_isSubmitted : bool
}.

(** [submissions?.some(...)]: false (undefined) while there are no
    submissions; [userId] is [user?._id]. *)
Definition hasSubmitted (submissions : option (list SubmissionRow))
    (userId : option string) (examId : string) : bool :=
  match submissions with
  | None => false
  | Some l =>
      existsb
        (λ sub,
           bool_decide (sub_examPaper sub = examId)
           && bool_decide (Some (sub_student sub) = userId)
           && sub_isSubmitted sub) l
  end.

(** [availableExams]. *)
Definition availableExams (examPapers : option (list Exam))
    (submissions : option (list SubmissionRow)) (userId : option string)
    : list Exam :=
  match examPapers with
  | None => []
  | Some l =>
      List.filter
        (λ exam,
           bool_decide (status exam = "approved")
           && negb (hasSubmitted submissions userId (exam_id exam))) l
  end.

Inductive StartOutcome :=
| CannotStart (t : Toast)
| Opens (path : string).

(** [handleStartExam]. *)
Definition handleStartExam (submissions : option (list SubmissionRow))
    (userId : option string) (examId : string) : StartOutcome :=
  if hasSubmitted submissions userId examId then
    CannotStart
      (mkToast "Cannot Start Exam" "You have already submitted this exam."
         variant_destructive)
  else Opens ("/exam-panel/" +:+ examId).

End ExamsPage.

(** ** More proof automation *)

(** Lookups through the writes of the panel; [Hkeys] states that its four
    keys differ. *)
Ltac keys_lookup Hkeys :=
  destruct Hkeys as (? & ? & ? & ? & ? & ?);
  rewrite ?lookup_insert_eq;
  repeat first
    [ rewrite lookup_insert_eq
    | rewrite lookup_insert_ne by (done || (apply not_eq_sym; done))
    | rewrite lookup_delete_ne by (done || (apply not_eq_sym; done)) ].

Ltac bool_arith :=
  repeat match goal with
         | H : (_ <? _) = true |- _ => apply Z.ltb_lt in H
         | H : (_ <? _) = false |- _ => apply Z.ltb_ge in H
         | H : (_ <? _)%nat = true |- _ => apply Nat.ltb_lt in H
         | H : (_ <? _)%nat = false |- _ => apply Nat.ltb_ge in H
         | H : (_ =? _) = true |- _ => apply Z.eqb_eq in H
         | H : (_ =? _) = false |- _ => apply Z.eqb_neq in H
         end.

(** All three questions answered, the last on display. *)
Definition threeOfThree : list (Z * Event) :=
  twoOfThree ++ [(5, AnswerChange "C")].

(** ** Requests *)

(** What a request sent at time [now] by a session mounted at [t0]
    carries: the paper, both times and the submitted flag. *)
Definition stamped (env : Env) (t0 now : Z) (o : Obs) : Prop :=
  match o with
  | ObsMutate s =>
      s_examPaper s = paper_id (examPaper env)
      ∧ s_startTime s = t0
      ∧ s_endTime s = now
      ∧ s_isSubmitted s = true
  | _ => True
  end.

(** The event [e], delivered at [now] in state [st], sends the request
    [s]: the step appends it to the trace. *)
Definition sends (env : Env) (now : Z) (e : Event) (st : State)
    (s : Submission) : Prop :=
  ∃ new, trace (step env now e st) = trace st ++ new ∧ ObsMutate s ∈ new.

(** The request body entries of an answer list, as [handleSubmit] maps
    them. *)
Definition submittedAnswers (l : list Answer) : list SubmittedAnswer :=
  map (λ a, mkSubmittedAnswer (questionIndex a) (selectedOption a)) l.

(** The scope the interval callback of a session keeps when the paper
    arrived after the first commit: that of the render in which it arrived,
    with the answers the session started with. *)
Definition capturedScope (st0 : State) : Scope :=
  mkScope false (answers st0) true.

(** The body of the timer effect (lines 129-155), run by the commit of the
    render [st] in which [examPaper] is defined: the interval callback
    keeps the [handleSubmit] of that render. *)
Definition timerEffect (env : Env) (st : State) : State :=
  if duration (examPaper env) =? 0 then st
  else
    let d := duration (examPaper env) * 60 in
    setItem (startTimeKey env) (VDate (startTime st))
      (setItem (timeLeftKey env) (VSeconds d)
        (set_timer (Some (scope_of st)) (set_timeLeft d st))).

(** Mounting while the query cache already holds the paper (the panel was
    left and is visited again): [useQuery] hands the paper to the first
    render.  The effects of the first commit run in source order: the
    timer effect (lines 129-155), whose [handleSubmit] is the one of the
    first render, where [answers] is still the empty list of [useState];
    the restore effect (lines 158-168), which reads the store; the save
    effect (lines 171-174), which writes the values of the first render.
    An authenticated user then gets the re-render with the restored values
    and its save effect; the timer effect does not run again, its
    dependency [examPaper] being the same object.  Otherwise the redirect
    of lines 58-62 unmounts the panel. *)
Definition startCached (env : Env) (now : Z) (ls : gmap string StoreVal)
    : State :=
  let restoredAnswers :=
    match ls !! answersKey env with
    | Some (VAnswers l) => l
    | _ => []
    end in
  let restoredIndex :=
    match ls !! questionIndexKey env with
    | Some (VIndex i) => i
    | _ => 0%nat
    end in
  let first :=
    mkState 0 0 [] false now None true ExamPanelPage ls [] [] [] in
  let committed := saveEffect env (timerEffect env first) in
  if user env && token env then
    saveEffect env
      (set_currentQuestionIndex restoredIndex
         (set_answers restoredAnswers committed))
  else navigate env "/login" (Some (panelPath env)) committed.

(** The scope of the first render of a mount from the cache. *)
Definition firstRenderScope : Scope := mkScope false [] true.

(** The state with the scope its live interval keeps replaced by [sc]. *)
Definition withScope (sc : Scope) (st : State) : State :=
  set_timer (match timer st with Some _ => Some sc | None => None end) st.

(** An answer given, then the countdown runs to its last second. *)
Definition answeredThenWaiting : list (Z * Event) :=
  (1, AnswerChange "A") :: ticks 59 true.

(** At most one request is under way, and only while [isSubmitting]. *)
Definition singleFlight (st : State) : Prop :=
  (length (inFlight st) ≤ 1)%nat
  ∧ (inFlight st ≠ [] → isSubmitting st = true).

(** The only question answered, then three clicks on the submit button
    with a tick in between. *)
Definition impatientClicks : list (Z * Event) :=
  [(1, AnswerChange "A"); (2, ClickSubmit true); (3, ClickSubmit true);
   (4, Tick true); (5, ClickSubmit true)].

(** ** Leaving the panel *)

(** Once the paper has arrived, a component that is no longer mounted has
    no interval and no timer entries in the side-store. *)
Definition leftClean (env : Env) (st : State) : Prop :=
  paperLoaded st = true
  ∧ (mounted st = false →
     timer st = None
     ∧ localStorage st !! timeLeftKey env = None
     ∧ localStorage st !! startTimeKey env = None).

(** A submission is acknowledged after two answers. *)
Definition submittedAndLeft : list (Z * Event) :=
  threeOfThree ++ [(6, ClickSubmit true); (7, SubmitSucceeded)].

(** What the side-store must hold for the provider to restore a session:
    a non-empty token and a non-empty user entry that parses to a value
    with an id and a role. *)
Definition restorable (JSON_parse : string → option AuthContext.User)
    (ls : gmap string string) (t raw : string) (u : AuthContext.User)
    : Prop :=
  ls !! "token" = Some t ∧ t ≠ EmptyString
  ∧ ls !! "user" = Some raw ∧ raw ≠ EmptyString
  ∧ JSON_parse raw = Some u
  ∧ AuthContext._id u ≠ EmptyString ∧ AuthContext.role u ≠ EmptyString.

(** A stand-in for the browser's JSON on one user: the text [{ada}] is
    what [sampleUser] is written as and the only text that parses. *)
Definition sampleUser : AuthContext.User :=
  AuthContext.mkUser "u1" "Ada" "ada@example.org" "student"
    (Some 3) (Some "CSE") (Some "SOET") None.

Definition sampleStringify (u : AuthContext.User) : string := "{ada}".

Definition sampleParse (s : string) : option AuthContext.User :=
  if String.eqb s "{ada}" then Some sampleUser else None.

Definition sampleAuthStore : gmap string string :=
  <["token" := "tok"]> (<["user" := "{ada}"]> (<["theme" := "dark"]> ∅)).

Definition nestedResponse : Api.LoginResponse :=
  Api.mkLoginResponse
    (Some (Api.mkLoginData (Some sampleUser) "t2"
             (AuthContext.mkUser "" "" "" "" None None None None)))
    None.

Definition flatResponse : Api.LoginResponse :=
  Api.mkLoginResponse (Some (Api.mkLoginData None "" sampleUser))
    (Some "Bearer t3").

Definition sampleExams : list ExamsPage.Exam :=
  [ExamsPage.mkExam "e1" "approved"; ExamsPage.mkExam "e2" "approved";
   ExamsPage.mkExam "e3" "pending"].

Definition sampleRows : list ExamsPage.SubmissionRow :=
  [ExamsPage.mkSubmissionRow "e1" "u1" true;
   ExamsPage.mkSubmissionRow "e2" "u9" true;
   ExamsPage.mkSubmissionRow "e2" "u1" false].

(** * Properties *)

(** ** Array helpers *)

Lemma findIndex_Some {A} (p : A → bool) (l : list A) (i : nat) :
  findIndex p l = Some i → ∃ x, l !! i = Some x ∧ p x = true.
Proof.
  revert i. induction l as [|x l IH]; intros i; simpl; [done|].
  destruct (p x) eqn:Hp.
  - intros [= <-]. by exists x.
  - destruct (findIndex p l) as [k|]; simpl; [|done].
    intros [= <-]. by apply IH.
Qed.

Lemma findIndex_None {A} (p : A → bool) (l : list A) :
  findIndex p l = None → Forall (λ x, p x = false) l.
Proof.
  induction l as [|x l IH]; simpl; [constructor|].
  destruct (p x) eqn:Hp; [done|].
  destruct (findIndex p l); simpl; [done|].
  intros _. constructor; auto.
Qed.

Lemma findIndex_lt {A} (p : A → bool) (l : list A) (i : nat) :
  findIndex p l = Some i → (i < length l)%nat.
Proof.
  intros (x & Hx & _)%findIndex_Some. by eapply lookup_lt_Some.
Qed.

(** Overwriting the first entry for [cur], as the first branch of
    [handleAnswerChange] does. *)
Lemma find_insert_found (cur j : nat) (a' : Answer) (l : list Answer) (i : nat) :
  questionIndex a' = cur →
  findIndex (λ a, Nat.eqb (questionIndex a) cur) l = Some i →
  find (λ a, Nat.eqb (questionIndex a) j) (<[i := a']> l)
  = if decide (j = cur) then Some a'
    else find (λ a, Nat.eqb (questionIndex a) j) l.
Proof.
  intros Ha. revert i. induction l as [|x l IH]; intros i; simpl; [done|].
  destruct (Nat.eqb_spec (questionIndex x) cur) as [Hx|Hx].
  - intros [= <-]. simpl. rewrite Ha.
    destruct (Nat.eqb_spec cur j), (decide (j = cur)); try congruence.
    rewrite Hx. by destruct (Nat.eqb_spec cur j).
  - destruct (findIndex _ l) as [k|] eqn:Hk; simpl; [|done].
    intros [= <-]. simpl.
    destruct (Nat.eqb_spec (questionIndex x) j) as [Hj|Hj].
    + destruct (decide (j = cur)); congruence.
    + by apply IH.
Qed.

(** Appending an entry for [cur], as the second branch does. *)
Lemma find_app_fresh (cur j : nat) (a' : Answer) (l : list Answer) :
  questionIndex a' = cur →
  findIndex (λ a, Nat.eqb (questionIndex a) cur) l = None →
  find (λ a, Nat.eqb (questionIndex a) j) (l ++ [a'])
  = if decide (j = cur) then Some a'
    else find (λ a, Nat.eqb (questionIndex a) j) l.
Proof.
  intros Ha. induction l as [|x l IH]; simpl.
  - intros _. rewrite Ha.
    destruct (Nat.eqb_spec cur j), (decide (j = cur)); congruence.
  - destruct (Nat.eqb_spec (questionIndex x) cur) as [Hx|Hx]; [done|].
    destruct (findIndex _ l) eqn:Hk; simpl; [done|]. intros _.
    destruct (Nat.eqb_spec (questionIndex x) j) as [Hj|Hj].
    + destruct (decide (j = cur)); congruence.
    + by apply IH.
Qed.

Lemma getAnswer_find (l : list Answer) (i : nat) :
  getAnswer l i
  = from_option selectedOption EmptyString
      (find (λ a, Nat.eqb (questionIndex a) i) l).
Proof.
  unfold getAnswer. destruct (find _ l) as [a|]; simpl; [|done].
  by destruct (selectedOption a).
Qed.

(** ** [handleAnswerChange] *)

Lemma handleAnswerChange_fields env v st st' :
  handleAnswerChange env v st = Some st' →
  timeLeft st' = timeLeft st ∧
  currentQuestionIndex st' = currentQuestionIndex st ∧
  isSubmitting st' = isSubmitting st ∧ startTime st' = startTime st ∧
  timer st' = timer st ∧ paperLoaded st' = paperLoaded st ∧
  location st' = location st ∧ localStorage st' = localStorage st ∧
  inFlight st' = inFlight st ∧ timeouts st' = timeouts st ∧
  trace st' = trace st.
Proof.
  unfold handleAnswerChange.
  destruct (findIndex _ _); destruct (questions _ !! _); simpl;
    intros [= <-]; by repeat split.
Qed.

Lemma handleAnswerChange_is_Some env v st :
  is_Some (handleAnswerChange env v st)
  ↔ (currentQuestionIndex st < length (questions (examPaper env)))%nat.
Proof.
  rewrite <- lookup_lt_is_Some. unfold handleAnswerChange.
  destruct (findIndex _ _); destruct (questions _ !! _); simpl;
    split; intros [x Hx]; try done; by eexists.
Qed.

Lemma handleAnswerChange_getAnswer env v st st' j :
  handleAnswerChange env v st = Some st' →
  getAnswer (answers st') j
  = if decide (j = currentQuestionIndex st) then v
    else getAnswer (answers st) j.
Proof.
  rewrite !getAnswer_find. unfold handleAnswerChange.
  destruct (findIndex _ _) as [i|] eqn:Hi;
    destruct (questions _ !! _) as [q|]; simpl; intros [= <-]; simpl.
  - rewrite (find_insert_found (currentQuestionIndex st)); [|done..].
    by case_decide.
  - rewrite (find_app_fresh (currentQuestionIndex st)); [|done..].
    by case_decide.
Qed.

(** The question indices of the list are unchanged by an overwrite and
    grow by a new index on an append. *)
Lemma handleAnswerChange_indices env v st st' :
  handleAnswerChange env v st = Some st' →
  (questionIndex <$> answers st' = questionIndex <$> answers st)
  ∨ (questionIndex <$> answers st'
       = (questionIndex <$> answers st) ++ [currentQuestionIndex st]
     ∧ currentQuestionIndex st ∉ questionIndex <$> answers st).
Proof.
  unfold handleAnswerChange.
  destruct (findIndex _ _) as [i|] eqn:Hi;
    destruct (questions _ !! _) as [q|]; simpl; intros [= <-]; simpl.
  - left. apply findIndex_Some in Hi as (x & Hx & Hp).
    apply Nat.eqb_eq in Hp. rewrite list_fmap_insert. simpl.
    apply list_insert_id. by rewrite list_lookup_fmap, Hx, <- Hp.
  - right. rewrite fmap_app. split; [done|].
    apply findIndex_None in Hi. intros (a & Ha & Hin)%list_elem_of_fmap.
    rewrite Forall_forall in Hi. apply Hi in Hin.
    apply Nat.eqb_neq in Hin. congruence.
Qed.

(** ** Frame facts of one step *)

(** Only an answer change touches the answer list. *)
Lemma step_answers env now e st :
  (∀ v, e ≠ AnswerChange v) → answers (step env now e st) = answers st.
Proof.
  intros He. destruct e as [r|v| | |r| |err|];
    try (by destruct (He v)); by step_cases.
Qed.

Lemma step_answerChange env now v st :
  step env now (AnswerChange v) st = st
  ∨ ∃ st', mounted st = true ∧ paperLoaded st = true
      ∧ handleAnswerChange env v st = Some st'
      ∧ step env now (AnswerChange v) st = saveEffect env st'.
Proof.
  simpl. destruct (mounted st) eqn:?, (paperLoaded st) eqn:?; simpl; auto.
  destruct (handleAnswerChange env v st) as [st'|] eqn:?; [|by left].
  right. by exists st'.
Qed.

(** Only a tick touches the counter. *)
Lemma step_timeLeft env now e st :
  (∀ r, e ≠ Tick r) → timeLeft (step env now e st) = timeLeft st.
Proof.
  intros He. destruct e as [r|v| | |r| |err|];
    try (by destruct (He r)); try (by step_cases).
  destruct (step_answerChange env now v st) as [->|(st' & _ & _ & H & ->)];
    [done|]. by apply handleAnswerChange_fields in H as (? & _).
Qed.

(** A component that has left the panel never comes back. *)
Lemma step_mounted env now e st :
  mounted (step env now e st) = true → mounted st = true.
Proof.
  destruct e; by step_cases.
Qed.

Lemma run_snoc env evs ev st :
  run env (evs ++ [ev]) st = step env ev.1 ev.2 (run env evs st).
Proof. unfold run. by rewrite foldl_app. Qed.

Lemma run_cons env ev evs st :
  run env (ev :: evs) st = run env evs (step env ev.1 ev.2 st).
Proof. done. Qed.

Lemma run_mounted env evs st :
  mounted (run env evs st) = true → mounted st = true.
Proof.
  revert st. induction evs as [|ev evs IH]; intros st; [done|].
  rewrite run_cons. intros H%IH. by eapply step_mounted.
Qed.

(** ** Keys of the side-store *)

Lemma list_ascii_of_string_app (s t : string) :
  String.list_ascii_of_string (s +:+ t)
  = String.list_ascii_of_string s ++ String.list_ascii_of_string t.
Proof. induction s as [|c s IH]; simpl; [done|]. by rewrite <- IH. Qed.

Lemma list_ascii_of_string_inj (s t : string) :
  String.list_ascii_of_string s = String.list_ascii_of_string t → s = t.
Proof.
  intros H. rewrite <- (String.string_of_list_ascii_of_string s).
  rewrite <- (String.string_of_list_ascii_of_string t). by rewrite H.
Qed.

(** A key determines both the attempt and the suffix: the four suffixes end
    in four different characters. *)
Lemma examKey_inj (id id' s s' : string) :
  s ∈ attemptSuffixes → s' ∈ attemptSuffixes →
  examKey id s = examKey id' s' → id = id' ∧ s = s'.
Proof.
  unfold attemptSuffixes, examKey. intros Hs Hs' H.
  apply (inj (String.app "exam_")) in H.
  apply (f_equal String.list_ascii_of_string) in H.
  rewrite !list_ascii_of_string_app in H.
  assert (Hr := f_equal (@rev _) H). rewrite !rev_app_distr in Hr.
  repeat (apply elem_of_cons in Hs as [->|Hs]);
    [..|by apply elem_of_nil in Hs];
    repeat (apply elem_of_cons in Hs' as [->|Hs']);
    try (by apply elem_of_nil in Hs'); try (by simpl in Hr);
    split; try done; apply list_ascii_of_string_inj;
    by eapply app_inv_tail.
Qed.

Lemma examKey_suffix_ne (id s s' : string) :
  s ∈ attemptSuffixes → s' ∈ attemptSuffixes → s ≠ s' →
  examKey id s ≠ examKey id s'.
Proof. intros Hs Hs' Hne H. by apply examKey_inj in H as [_ ?]. Qed.

Lemma answersKey_ne_questionIndexKey env :
  answersKey env ≠ questionIndexKey env.
Proof. apply examKey_suffix_ne; [set_solver..|done]. Qed.

Lemma timeLeftKey_ne_startTimeKey env : timeLeftKey env ≠ startTimeKey env.
Proof. apply examKey_suffix_ne; [set_solver..|done]. Qed.

(** ** The answer store *)

Lemma saveEffect_answers env st : answers (saveEffect env st) = answers st.
Proof. done. Qed.

Lemma saveEffect_lookup_answers env st :
  localStorage (saveEffect env st) !! answersKey env
  = Some (VAnswers (answers st)).
Proof.
  unfold saveEffect, setItem; simpl.
  rewrite lookup_insert_ne by (apply not_eq_sym, answersKey_ne_questionIndexKey).
  apply lookup_insert_eq.
Qed.

Lemma step_getAnswer env now e st i :
  getAnswer (answers (step env now e st)) i
  = lastSet (getAnswer (answers st) i) i (setAnswerCall env e st).
Proof.
  destruct e; try (by rewrite step_answers).
  simpl. destruct (mounted st && paperLoaded st); [|done].
  destruct (handleAnswerChange env answer st) as [st'|] eqn:H; [|done].
  rewrite saveEffect_answers, (handleAnswerChange_getAnswer _ _ _ _ _ H).
  unfold lastSet; simpl.
  destruct (Nat.eqb_spec (currentQuestionIndex st) i); case_decide;
    congruence.
Qed.

Lemma run_getAnswer env evs st i :
  getAnswer (answers (run env evs st)) i
  = lastSet (getAnswer (answers st) i) i (setAnswerCalls env evs st).
Proof.
  revert st. induction evs as [|ev evs IH]; intros st; [done|].
  rewrite run_cons, IH, step_getAnswer. simpl.
  unfold lastSet. by rewrite foldl_app.
Qed.

(** C3. Starting from the empty answer list, after any run [getAnswer i]
    is the value most recently set for index [i] (the empty string when
    none was set); an answer change for the question on display leaves
    the answer of every other index as it was; and after an answer change
    that sets an answer the side-store holds the whole answer list under
    the answers key. *)
Theorem answer_store_last_write_wins env now evs st0 :
  answers st0 = [] →
  let st := run env evs st0 in
  (∀ i, getAnswer (answers st) i
        = lastSet EmptyString i (setAnswerCalls env evs st0))
  ∧ (∀ v j, j ≠ currentQuestionIndex st →
       getAnswer (answers (step env now (AnswerChange v) st)) j
       = getAnswer (answers st) j)
  ∧ (∀ v, setAnswerCall env (AnswerChange v) st ≠ [] →
       localStorage (step env now (AnswerChange v) st) !! answersKey env
       = Some (VAnswers (answers (step env now (AnswerChange v) st)))).
Proof.
  intros H0 st. split; [|split].
  - intros i. subst st. by rewrite run_getAnswer, H0.
  - intros v j Hj. rewrite step_getAnswer. simpl.
    destruct (mounted st && paperLoaded st); [|done].
    destruct (handleAnswerChange env v st); [|done].
    unfold lastSet; simpl.
    by destruct (Nat.eqb_spec (currentQuestionIndex st) j); [congruence|].
  - intros v Hv. simpl in *.
    destruct (mounted st && paperLoaded st); [|done].
    destruct (handleAnswerChange env v st) as [st'|]; [|done].
    by rewrite saveEffect_lookup_answers.
Qed.

(** The scenario [setAnswer(0, "B")] then [setAnswer(0, "C")]. *)
Lemma answer_store_last_write_wins_witness :
  answers (start env1 0 ∅) = []
  ∧ getAnswer
      (answers (run env1 [(1, AnswerChange "B"); (2, AnswerChange "C")]
                  (start env1 0 ∅))) 0 = "C"
  ∧ localStorage
      (run env1 [(1, AnswerChange "B"); (2, AnswerChange "C")]
         (start env1 0 ∅)) !! answersKey env1
    = Some (VAnswers [mkAnswer 0 "C" "q0"]).
Proof.
  assert (answers (start env1 0 ∅) = []) as H0 by (vm_compute; reflexivity).
  split; [exact H0|]. split.
  - destruct (answer_store_last_write_wins env1 2
                [(1, AnswerChange "B"); (2, AnswerChange "C")]
                (start env1 0 ∅) H0) as (H & _ & _).
    rewrite (H 0%nat). vm_compute. reflexivity.
  - destruct (answer_store_last_write_wins env1 2
                [(1, AnswerChange "B")] (start env1 0 ∅) H0)
      as (_ & _ & H).
    rewrite (run_snoc env1 [(1, AnswerChange "B")] (2, AnswerChange "C")).
    simpl fst; simpl snd. rewrite (H "C").
    + vm_compute. reflexivity.
    + vm_compute. discriminate.
Defined.

(** ** One entry per question index *)

Lemma payload_indices env sc st now :
  sa_questionIndex <$> s_answers (payload env sc st now)
  = indicesOf (sc_answers sc).
Proof.
  unfold payload, indicesOf; simpl.
  rewrite <- list_fmap_compose. by apply list_fmap_ext.
Qed.

Lemma handleSubmit_inv env sc reply now st :
  NoDup (indicesOf (sc_answers sc)) →
  sessionInv env st → sessionInv env (handleSubmit env sc reply now st).
Proof.
  intros Hsc (Ha & Hr & Ht & Htr).
  assert (obsOk (ObsMutate (payload env sc st now))) as Hp
    by (unfold obsOk; by rewrite payload_indices).
  unfold sessionInv. step_cases; repeat split; try done;
    rewrite ?Forall_app, ?Forall_singleton; by repeat split.
Qed.

Lemma step_inv env now e st :
  sessionInv env st → sessionInv env (step env now e st).
Proof.
  intros Hinv. destruct e.
  - (* Tick *)
    unfold step, tick. destruct (timer st) as [sc|] eqn:Hsc; [|done].
    destruct (timeLeft st <=? 1).
    + assert (sessionInv env
                (handleSubmit env sc reply now
                   (observe ObsAutoSubmit (set_timer None st)))) as H.
      { destruct Hinv as (Ha & Hr & Ht & Htr). rewrite Hsc in Ht.
        apply handleSubmit_inv; [done|].
        repeat split; try done; simpl.
        rewrite Forall_app, Forall_singleton. by split. }
      exact H.
    + exact Hinv.
  - (* AnswerChange *)
    destruct (step_answerChange env now answer st)
      as [->|(st' & _ & _ & H & ->)]; [done|].
    destruct Hinv as (Ha & Hr & Ht & Htr).
    pose proof (handleAnswerChange_fields _ _ _ _ H)
      as (_ & _ & _ & _ & Htm & _ & _ & _ & _ & _ & Htc).
    assert (is_Some (handleAnswerChange env answer st)) as Hlt by eauto.
    apply handleAnswerChange_is_Some in Hlt.
    unfold sessionInv, indicesOf in *. simpl.
    rewrite Htm, Htc.
    destruct (handleAnswerChange_indices _ _ _ _ H) as [->|[-> Hnew]];
      repeat split; try done.
    + apply NoDup_app. repeat split; [done| |apply NoDup_singleton].
      intros x Hx ->%list_elem_of_singleton. done.
    + rewrite Forall_app, Forall_singleton. by split.
  - (* Next *) unfold step. by step_cases.
  - (* Previous *) unfold step. by step_cases.
  - (* ClickSubmit *)
    unfold step. case_match; [|done].
    apply handleSubmit_inv; [|done]. by destruct Hinv.
  - (* SubmitSucceeded *)
    destruct Hinv as (Ha & Hr & Ht & Htr).
    unfold sessionInv. step_cases; repeat split; try done;
      rewrite ?Forall_app, ?Forall_singleton; by repeat split.
  - (* SubmitFailed *)
    destruct Hinv as (Ha & Hr & Ht & Htr).
    unfold sessionInv. step_cases; repeat split; try done;
      rewrite ?Forall_app, ?Forall_singleton; by repeat split.
  - (* TimeoutFired *)
    destruct Hinv as (Ha & Hr & Ht & Htr).
    unfold sessionInv. step_cases; repeat split; try done.
Qed.

Lemma run_inv env evs st :
  sessionInv env st → sessionInv env (run env evs st).
Proof.
  revert st. induction evs as [|ev evs IH]; intros st H; [done|].
  rewrite run_cons. by apply IH, step_inv.
Qed.

Lemma examLoaded_fields env st :
  answers (examLoaded env st) = answers st
  ∧ trace (examLoaded env st) = trace st
  ∧ inFlight (examLoaded env st) = inFlight st
  ∧ isSubmitting (examLoaded env st) = isSubmitting st
  ∧ location (examLoaded env st) = location st
  ∧ (timer (examLoaded env st) = timer st
     ∨ timer (examLoaded env st)
       = Some (mkScope (isSubmitting st) (answers st) true)).
Proof. step_cases; repeat split; auto. Qed.

Lemma mount_fields env now ls :
  trace (mount env now ls) = [] ∧ inFlight (mount env now ls) = []
  ∧ timer (mount env now ls) = None
  ∧ isSubmitting (mount env now ls) = false
  ∧ paperLoaded (mount env now ls) = false
  ∧ timeLeft (mount env now ls) = 0
  ∧ startTime (mount env now ls) = now
  ∧ mounted (mount env now ls) = user env && token env.
Proof. unfold mount. repeat split. simpl. unfold mounted. simpl.
  by destruct (user env && token env). Qed.

Lemma start_answers env now ls :
  answers (start env now ls) = answers (mount env now ls).
Proof. apply examLoaded_fields. Qed.

Lemma start_inv env now ls :
  answers (start env now ls) = [] → sessionInv env (start env now ls).
Proof.
  intros H. pose proof H as H'. rewrite start_answers in H'.
  destruct (examLoaded_fields env (mount env now ls))
    as (_ & Htr & _ & _ & _ & Htm).
  destruct (mount_fields env now ls) as (Htr' & _ & Htm' & _).
  unfold sessionInv. rewrite H. unfold start.
  rewrite Htr, Htr'. repeat split; try constructor.
  destruct Htm as [->| ->]; [by rewrite Htm'|].
  unfold scopeOk. cbn [sc_answers]. rewrite H'. constructor.
Qed.

Lemma start_inv_restored env now ls :
  wellFormedAnswers env (answers (start env now ls)) →
  sessionInv env (start env now ls).
Proof.
  intros [Hnd Hall]. pose proof Hnd as Hnd'. rewrite start_answers in Hnd'.
  destruct (examLoaded_fields env (mount env now ls))
    as (_ & Htr & _ & _ & _ & Htm).
  destruct (mount_fields env now ls) as (Htr' & _ & Htm' & _).
  unfold sessionInv. unfold start at 3 4.
  rewrite Htr, Htr'. repeat split; try done; try constructor.
  destruct Htm as [->| ->]; [by rewrite Htm'|].
  unfold scopeOk. cbn [sc_answers]. done.
Qed.

(** C10. Starting from the empty answer list, after any run the answer
    list holds at most one entry per question index: the indices are
    pairwise distinct, the length used for the progress bar and for the
    unanswered-questions check is the number of distinct answered indices,
    and no request body sent so far carries two answers for one index. *)
Theorem one_entry_per_question env now ls evs :
  answers (start env now ls) = [] →
  let st := run env evs (start env now ls) in
  NoDup (indicesOf (answers st))
  ∧ length (answers st)
    = size (list_to_set (indicesOf (answers st)) : gset nat)
  ∧ (∀ s, ObsMutate s ∈ trace st →
          NoDup (sa_questionIndex <$> s_answers s)).
Proof.
  intros H0 st.
  destruct (run_inv env evs _ (start_inv env now ls H0))
    as (Ha & _ & _ & Htr).
  fold st in Ha, Htr. split; [done|]. split.
  - rewrite size_list_to_set by done. unfold indicesOf.
    by rewrite length_fmap.
  - intros s Hs. rewrite Forall_forall in Htr. by apply (Htr _ Hs).
Qed.

Lemma one_entry_per_question_witness :
  answers (start env3 0 ∅) = []
  ∧ length
      (answers
         (run env3
            [(1, AnswerChange "A"); (2, Next); (3, AnswerChange "B");
             (4, Previous); (5, AnswerChange "C")] (start env3 0 ∅)))
    = 2%nat
  ∧ NoDup
      (indicesOf
         (answers
            (run env3
               [(1, AnswerChange "A"); (2, Next); (3, AnswerChange "B");
                (4, Previous); (5, AnswerChange "C")] (start env3 0 ∅)))).
Proof.
  assert (answers (start env3 0 ∅) = []) as H0 by (vm_compute; reflexivity).
  destruct (one_entry_per_question env3 0 ∅
              [(1, AnswerChange "A"); (2, Next); (3, AnswerChange "B");
               (4, Previous); (5, AnswerChange "C")] H0) as (H1 & H2 & _).
  split; [exact H0|]. split; [vm_compute; reflexivity|exact H1].
Defined.

(** ** Manual submission *)

Lemma missing_index_lt (l : list nat) (n q : nat) :
  NoDup l → Forall (λ i, (i < n)%nat) l → (q < n)%nat → q ∉ l →
  (length l < n)%nat.
Proof.
  intros Hnd Hall Hq Hnot.
  assert (q :: l ⊆+ seq 0 n) as Hsub.
  { apply NoDup_submseteq; [by constructor|].
    intros x [->|Hx]%elem_of_cons; apply elem_of_seq; [lia|].
    rewrite Forall_forall in Hall. apply Hall in Hx. lia. }
  apply submseteq_length in Hsub. rewrite length_seq in Hsub.
  simpl in Hsub. lia.
Qed.

Lemma start_mounted env now ls :
  mounted (start env now ls) = true → user env = true ∧ token env = true.
Proof.
  unfold mounted, start.
  destruct (examLoaded_fields env (mount env now ls))
    as (_ & _ & _ & _ & -> & _).
  destruct (mount_fields env now ls) as (_ & _ & _ & _ & _ & _ & _ & Hm).
  fold (mounted (mount env now ls)). rewrite Hm.
  by intros [? ?]%andb_true_iff.
Qed.

(** X22. What the length test of line 229 does achieve.  In a session whose
    answer list at the start was empty or as the panel had written it, a
    click on the submit button while some question has no entry in the
    answer list shows the confirmation prompt first.  When the user
    declines, nothing but the prompt happened: the session is still active
    and no request was sent.  When the user accepts, the request goes
    out. *)
Theorem manual_submit_needs_confirmation env now0 ls evs now :
  let st := run env evs (start env now0 ls) in
  wellFormedAnswers env (answers (start env now0 ls)) →
  mounted st = true → paperLoaded st = true →
  isLastQuestion env st = true → isSubmitting st = false →
  (∃ q, (q < length (questions (examPaper env)))%nat
        ∧ q ∉ indicesOf (answers st)) →
  step env now (ClickSubmit false) st = observe (ObsConfirm false) st
  ∧ sessionState (step env now (ClickSubmit false) st) = active
  ∧ inFlight (step env now (ClickSubmit false) st) = inFlight st
  ∧ step env now (ClickSubmit true) st
    = observe (ObsMutate (payload env (scope_of st) st now))
        (set_inFlight (inFlight st ++ [payload env (scope_of st) st now])
           (set_isSubmitting true (observe (ObsConfirm true) st))).
Proof.
  intros st H0 Hm Hp Hlast Hsub (q & Hq & Hnot).
  destruct (run_inv env evs _ (start_inv_restored env now0 ls H0))
    as (Ha & Hr & _ & _).
  fold st in Ha, Hr.
  pose proof (missing_index_lt _ _ _ Ha Hr Hq Hnot) as Hlen.
  unfold indicesOf in Hlen. rewrite length_fmap in Hlen.
  apply Nat.ltb_lt in Hlen.
  destruct (start_mounted env now0 ls (run_mounted _ _ _ Hm)) as [Hu _].
  assert (∀ r, step env now (ClickSubmit r) st
               = handleSubmit env (scope_of st) r now st) as Hstep.
  { intros r. unfold step. by rewrite Hm, Hp, Hlast, Hsub. }
  assert (step env now (ClickSubmit false) st = observe (ObsConfirm false) st)
    as Hdecl.
  { rewrite Hstep. unfold handleSubmit, scope_of. cbn [sc_isSubmitting
      sc_examPaper sc_answers]. by rewrite Hsub, Hu, Hp, Hlen. }
  split; [done|]. rewrite Hdecl. split; [|split; [done|]].
  - unfold sessionState, mounted in *. simpl. by rewrite Hm, Hp, Hsub.
  - rewrite Hstep. unfold handleSubmit, scope_of. cbn [sc_isSubmitting
      sc_examPaper sc_answers]. by rewrite Hsub, Hu, Hp, Hlen.
Qed.

Lemma manual_submit_needs_confirmation_witness :
  sessionState
    (step env3 9 (ClickSubmit false) (run env3 twoOfThree (start env3 0 ∅)))
  = active
  ∧ inFlight
      (step env3 9 (ClickSubmit false) (run env3 twoOfThree (start env3 0 ∅)))
    = [].
Proof.
  assert (wellFormedAnswers env3 (answers (start env3 0 ∅))) as H0
    by (split; vm_compute; constructor).
  assert (mounted (run env3 twoOfThree (start env3 0 ∅)) = true) as Hm
    by (vm_compute; reflexivity).
  assert (paperLoaded (run env3 twoOfThree (start env3 0 ∅)) = true) as Hp
    by (vm_compute; reflexivity).
  assert (isLastQuestion env3 (run env3 twoOfThree (start env3 0 ∅)) = true)
    as Hl by (vm_compute; reflexivity).
  assert (isSubmitting (run env3 twoOfThree (start env3 0 ∅)) = false) as Hs
    by (vm_compute; reflexivity).
  assert (∃ q, (q < length (questions (examPaper env3)))%nat
               ∧ q ∉ indicesOf
                       (answers (run env3 twoOfThree (start env3 0 ∅))))
    as Hq.
  { exists 2%nat. split; [vm_compute; lia|]. vm_compute.
    intros H. repeat (apply elem_of_cons in H as [H|H]; [discriminate H|]).
    by apply elem_of_nil in H. }
  destruct (manual_submit_needs_confirmation env3 0 ∅ twoOfThree 9
              H0 Hm Hp Hl Hs Hq) as (_ & H1 & H2 & _).
  split; [exact H1|]. rewrite H2. vm_compute. reflexivity.
Defined.

(** C7, evaluated.  One free-text question.  On the fresh session a click
    on the submit button shows the prompt.  After a character is typed
    into the text area and removed again, the question shows the same
    empty text as before, but [handleAnswerChange] has left its entry in
    the answer list with an empty [selectedOption].  The test
    [answers.length < questions.length] then finds nothing unanswered: the
    click sends the request at once, with the empty answer, and no prompt
    is shown although the user would have declined. *)
Theorem cleared_answer_submits_without_prompt :
  let st0 := start envEssay 0 ∅ in
  let st := run envEssay typedThenCleared st0 in
  let st' := step envEssay 3 (ClickSubmit false) st in
  getAnswer (answers st0) 0 = EmptyString
  ∧ step envEssay 3 (ClickSubmit false) st0 = observe (ObsConfirm false) st0
  ∧ getAnswer (answers st) 0 = EmptyString
  ∧ answers st = [mkAnswer 0 EmptyString "q0"]
  ∧ sessionState st = active
  ∧ trace st'
    = [ObsMutate
         (mkSubmission "p2" [mkSubmittedAnswer 0 EmptyString] 0 3 true)]
  ∧ inFlight st'
    = [mkSubmission "p2" [mkSubmittedAnswer 0 EmptyString] 0 3 true]
  ∧ sessionState st' = submitting.
Proof.
  cbv zeta.
  split; [vm_compute; reflexivity|].
  split; [vm_compute; reflexivity|].
  split; [vm_compute; reflexivity|].
  split; [vm_compute; reflexivity|].
  split; [vm_compute; reflexivity|].
  split; [vm_compute; reflexivity|].
  split; vm_compute; reflexivity.
Qed.

(** ** The countdown *)

Lemma countAutoSubmit_app tr tr' :
  countAutoSubmit (tr ++ tr') = (countAutoSubmit tr + countAutoSubmit tr')%nat.
Proof.
  induction tr as [|o tr IH]; simpl; [done|]. destruct o; simpl; lia.
Qed.

Lemma countTicks_snoc evs ev :
  Z.of_nat (countTicks (evs ++ [ev]))
  = Z.of_nat (countTicks evs) + tickOf ev.2.
Proof.
  induction evs as [|[t e] evs IH]; simpl.
  - destruct ev as [t [ ]]; simpl; lia.
  - destruct e; simpl in *; lia.
Qed.

Lemma step_timerInv env now e d k st :
  d = duration (examPaper env) * 60 → 0 < duration (examPaper env) →
  timerInv d k st → timerInv d (k + tickOf e) (step env now e st).
Proof.
  intros Hd Hpos. unfold timerInv. destruct e as [r|v| | |r| |err|].
  - step_cases; rewrite ?countAutoSubmit_app in *; timer_arith.
  - destruct (step_answerChange env now v st)
      as [->|(st' & _ & _ & H & ->)]; simpl; rewrite Z.add_0_r; [done|].
    apply handleAnswerChange_fields in H
      as (Ht & _ & _ & _ & Htm & Hp & Hl & _ & _ & _ & Htr).
    unfold mounted, saveEffect, setItem, set_localStorage. simpl.
    rewrite Ht, Htm, Hp, Hl, Htr. done.
  - step_cases; rewrite ?countAutoSubmit_app in *; timer_arith.
  - step_cases; rewrite ?countAutoSubmit_app in *; timer_arith.
  - step_cases; rewrite ?countAutoSubmit_app in *; timer_arith.
  - step_cases; rewrite ?countAutoSubmit_app in *; timer_arith.
  - step_cases; rewrite ?countAutoSubmit_app in *; timer_arith.
  - step_cases; rewrite ?countAutoSubmit_app in *; timer_arith.
Qed.

Lemma run_timerInv env evs d st :
  d = duration (examPaper env) * 60 → 0 < duration (examPaper env) →
  timerInv d 0 st →
  timerInv d (Z.of_nat (countTicks evs)) (run env evs st).
Proof.
  intros Hd Hpos H0. induction evs as [|ev evs IH] using rev_ind; [done|].
  rewrite run_snoc, countTicks_snoc. by apply step_timerInv.
Qed.

Lemma start_timerInv env now ls :
  0 < duration (examPaper env) →
  timerInv (duration (examPaper env) * 60) 0 (start env now ls).
Proof.
  intros Hpos. unfold timerInv.
  step_cases; rewrite ?countAutoSubmit_app in *; timer_arith.
Qed.

(** What one interval callback does to the counter. *)
Lemma tick_timeLeft env reply now st :
  timeLeft (tick env reply now st)
  = match timer st with
    | None => timeLeft st
    | Some _ => if timeLeft st <=? 1 then 0 else timeLeft st - 1
    end.
Proof. by step_cases. Qed.

Lemma tick_stopped env reply now st :
  timer st = None → tick env reply now st = st.
Proof. unfold tick. by intros ->. Qed.

(** C5. In a session of a paper with a positive duration, after any run:
    the counter is never negative; no event makes it larger; the timer
    has called the expiry callback at most once, and once it has, the
    counter is zero and the timer is stopped, so that further ticks change
    nothing.  While the panel is mounted the counter is the duration in
    seconds minus the number of ticks, clamped at zero, and the callback
    has run exactly once as soon as that many ticks have been delivered. *)
Theorem countdown_monotone_expires_once env now0 ls evs :
  0 < duration (examPaper env) →
  let d := duration (examPaper env) * 60 in
  let st := run env evs (start env now0 ls) in
  0 ≤ timeLeft st
  ∧ (∀ now e, timeLeft (step env now e st) ≤ timeLeft st)
  ∧ (countAutoSubmit (trace st) ≤ 1)%nat
  ∧ (countAutoSubmit (trace st) = 1%nat →
     timeLeft st = 0 ∧ timer st = None
     ∧ ∀ now r, step env now (Tick r) st = st)
  ∧ (mounted st = true →
     timeLeft st = Z.max 0 (d - Z.of_nat (countTicks evs))
     ∧ countAutoSubmit (trace st)
       = if d <=? Z.of_nat (countTicks evs) then 1%nat else 0%nat).
Proof.
  intros Hpos d st.
  destruct (run_timerInv env evs d _ eq_refl Hpos
              (start_timerInv env now0 ls Hpos))
    as (H0 & H1 & H2 & H3 & H4).
  fold st in H0, H1, H2, H3, H4.
  split; [done|]. split; [|split; [done|split]].
  - intros now e. destruct e as [r|v| | |r| |err|];
      try (rewrite step_timeLeft by done; lia).
    unfold step. rewrite tick_timeLeft.
    destruct (timer st); [|lia].
    destruct (Z.leb_spec (timeLeft st) 1); lia.
  - intros H. destruct (H3 H) as [? Ht]. repeat split; try done.
    intros now r. by apply tick_stopped.
  - intros Hm. destruct (H4 Hm) as (? & _ & ?). done.
Qed.

Lemma countdown_monotone_expires_once_witness :
  0 < duration (examPaper env1)
  ∧ timeLeft (run env1 (ticks 59 true) (start env1 0 ∅)) = 1
  ∧ countAutoSubmit (trace (run env1 (ticks 59 true) (start env1 0 ∅)))
    = 0%nat
  ∧ timeLeft (run env1 (ticks 60 true) (start env1 0 ∅)) = 0
  ∧ countAutoSubmit (trace (run env1 (ticks 60 true) (start env1 0 ∅)))
    = 1%nat.
Proof.
  assert (0 < duration (examPaper env1)) as Hpos by (vm_compute; reflexivity).
  assert (mounted (run env1 (ticks 59 true) (start env1 0 ∅)) = true) as Hm59
    by (vm_compute; reflexivity).
  assert (mounted (run env1 (ticks 60 true) (start env1 0 ∅)) = true) as Hm60
    by (vm_compute; reflexivity).
  destruct (countdown_monotone_expires_once env1 0 ∅ (ticks 59 true) Hpos)
    as (_ & _ & _ & _ & H59).
  destruct (countdown_monotone_expires_once env1 0 ∅ (ticks 60 true) Hpos)
    as (_ & _ & _ & _ & H60).
  destruct (H59 Hm59) as [-> ->]. destruct (H60 Hm60) as [-> ->].
  split; [exact Hpos|]. repeat split; vm_compute; reflexivity.
Defined.

(** ** Clearing the side-store *)

Lemma navigate_lookup_None env path from st k :
  localStorage st !! k = None →
  localStorage (navigate env path from st) !! k = None.
Proof.
  intros H. unfold navigate, timerCleanup.
  destruct (mounted st); [|done]. simpl.
  destruct (paperLoaded st && _); [|done]. simpl.
  rewrite !lookup_delete_None. auto.
Qed.

Lemma navigate_lookup_other env path from st k :
  k ≠ timeLeftKey env → k ≠ startTimeKey env →
  localStorage (navigate env path from st) !! k = localStorage st !! k.
Proof.
  intros H1 H2. unfold navigate, timerCleanup.
  destruct (mounted st); [|done]. simpl.
  destruct (paperLoaded st && _); [|done]. simpl.
  by rewrite !lookup_delete_ne.
Qed.

Lemma onSuccess_removed env st s :
  s ∈ attemptSuffixes →
  localStorage (onSuccess env st) !! examKey (route_id env) s = None.
Proof.
  intros Hs. unfold onSuccess. apply navigate_lookup_None.
  unfold removeItem, observe, answersKey, questionIndexKey, timeLeftKey,
    startTimeKey; simpl.
  rewrite !lookup_delete_None.
  unfold attemptSuffixes in Hs.
  repeat (apply elem_of_cons in Hs as [->|Hs]); auto.
  by apply elem_of_nil in Hs.
Qed.

Lemma onSuccess_other env st k :
  (∀ s, s ∈ attemptSuffixes → k ≠ examKey (route_id env) s) →
  localStorage (onSuccess env st) !! k = localStorage st !! k.
Proof.
  intros Hk. unfold onSuccess.
  assert (k ≠ answersKey env ∧ k ≠ questionIndexKey env
          ∧ k ≠ timeLeftKey env ∧ k ≠ startTimeKey env) as (? & ? & ? & ?).
  { repeat split; apply Hk; set_solver. }
  rewrite navigate_lookup_other by done.
  unfold removeItem, observe; simpl. by rewrite !lookup_delete_ne.
Qed.

Lemma logout_loop_lookup (keys : list string) (m : gmap string StoreVal) k :
  foldl (λ m key, if startsWith key "exam_" then delete key m else m) m keys
    !! k
  = if decide (k ∈ keys ∧ startsWith k "exam_" = true) then None else m !! k.
Proof.
  revert m. induction keys as [|key keys IH]; intros m; cbn [foldl].
  - case_decide as H; [|done]. destruct H as [H _]. by apply elem_of_nil in H.
  - rewrite IH. destruct (decide (k = key)) as [->|Hne].
    + destruct (startsWith key "exam_") eqn:Hp.
      * rewrite lookup_delete_eq.
        rewrite (decide_True (P := key ∈ key :: keys ∧ true = true))
          by (split; [left|done]).
        by case_decide.
      * rewrite !decide_False; [done|..]; intros [_ Hf]; discriminate Hf.
    + assert ((if startsWith key "exam_" then delete key m else m) !! k
              = m !! k) as ->.
      { destruct (startsWith key "exam_"); [|done].
        by rewrite lookup_delete_ne. }
      apply decide_ext. rewrite elem_of_cons. tauto.
Qed.

Lemma logout_removes_prefixed path ls k :
  startsWith k "exam_" = true → (logout path ls).1 !! k = None.
Proof.
  intros Hk. unfold logout; simpl. rewrite logout_loop_lookup.
  case_decide as H; [done|].
  destruct (delete "token" (delete "user" ls) !! k) as [v|] eqn:Hv; [|done].
  exfalso. apply H. split; [|done].
  apply list_elem_of_fmap. exists (k, v). split; [done|].
  by apply elem_of_map_to_list.
Qed.

Lemma examKey_startsWith id s : startsWith (examKey id s) "exam_" = true.
Proof. vm_compute. reflexivity. Qed.

(** ** Submission failures *)

Lemma duplicate_not_unauthorized err :
  isDuplicateSubmission err = true → statusIs err 401 = false.
Proof.
  unfold isDuplicateSubmission, statusIs. destruct err as [r|]; [|done].
  intros [H _]%andb_true_iff. apply Z.eqb_eq in H. rewrite H. done.
Qed.

(** C8.  When a submission fails, [isSubmitting] is reset.  A failure
    identified as a duplicate submission (status 400 with the
    already-submitted message) is benign: it shows a default-variant toast,
    keeps the user on the panel and schedules the redirect to the dashboard
    2000 ms later.  An authentication failure (401), the sub-case the
    specification sets apart beside it, sends the user to the login page
    with the panel as return path and shows nothing.  Every other failure
    keeps the user on the panel with a destructive error toast, from where
    the submit button works again. *)
Theorem submit_failure_cases env now err st sub rest :
  mounted st = true → inFlight st = sub :: rest →
  let st' := step env now (SubmitFailed err) st in
  isSubmitting st' = false
  ∧ (statusIs err 401 = true →
     location st' = Page "/login" (Some (panelPath env))
     ∧ trace st' = trace st)
  ∧ (isDuplicateSubmission err = true →
     location st' = ExamPanelPage
     ∧ trace st'
       = trace st
         ++ [ObsToast
               (mkToast "Already Submitted"
                  "You have already submitted this exam. Redirecting to dashboard..."
                  variant_default)]
     ∧ timeouts st' = timeouts st ++ [(2000, "/dashboard")]
     ∧ (timeouts st = [] →
        location (step env now TimeoutFired st') = Page "/dashboard" None))
  ∧ (statusIs err 401 = false → isDuplicateSubmission err = false →
     staysWithErrorNotice st'
     ∧ trace st'
       = trace st
         ++ [ObsToast
               (mkToast "Error"
                  (orElse (messageOf err)
                     "Failed to submit exam. Please try again.")
                  variant_destructive)]).
Proof.
  intros Hm Hin st'. subst st'. unfold step. rewrite Hin.
  unfold staysWithErrorNotice, isDuplicateSubmission.
  split; [|split; [|split]].
  - by step_cases.
  - intros H. unfold onError. rewrite H. by step_cases.
  - intros H. pose proof (duplicate_not_unauthorized _ H) as H'.
    unfold isDuplicateSubmission in H. unfold onError. rewrite H', H.
    destruct st as [tl cq an sb stt tm pl loc sto inf tos tr]; simpl in *.
    unfold mounted in Hm; simpl in Hm.
    destruct loc; [|done]. repeat split; try done.
    intros ->. by step_cases.
  - intros H H'. unfold onError. rewrite H, H'.
    destruct st as [tl cq an sb stt tm pl loc sto inf tos tr]; simpl in *.
    unfold mounted in Hm; simpl in Hm.
    destruct loc; [|done]. repeat split; try done.
    eexists. rewrite last_snoc. done.
Qed.

Lemma submit_failure_cases_witness :
  location (step env1 3 (SubmitFailed duplicate) submittedOnce)
  = ExamPanelPage
  ∧ timeouts (step env1 3 (SubmitFailed duplicate) submittedOnce)
    = [(2000, "/dashboard")]
  ∧ location (step env1 3 (SubmitFailed unauthorized) submittedOnce)
    = Page "/login" (Some "/exam-panel/e1")
  ∧ staysWithErrorNotice
      (step env1 3 (SubmitFailed (Some (mkErrorResponse 500 None)))
         submittedOnce).
Proof.
  assert (mounted submittedOnce = true) as Hm by (vm_compute; reflexivity).
  assert (∃ sub, inFlight submittedOnce = sub :: []) as [sub Hin]
    by (eexists; vm_compute; reflexivity).
  destruct (submit_failure_cases env1 3 duplicate submittedOnce sub []
              Hm Hin) as (_ & _ & Hd & _).
  destruct (submit_failure_cases env1 3 unauthorized submittedOnce sub []
              Hm Hin) as (_ & Hu & _).
  destruct (submit_failure_cases env1 3 (Some (mkErrorResponse 500 None))
              submittedOnce sub [] Hm Hin) as (_ & _ & _ & Hg).
  destruct Hd as (Hd1 & _ & Hd2 & _); [vm_compute; reflexivity|].
  destruct Hu as (Hu1 & _); [vm_compute; reflexivity|].
  destruct Hg as (Hg1 & _); [vm_compute; reflexivity..|].
  split; [exact Hd1|]. split; [rewrite Hd2; vm_compute; reflexivity|].
  split; [rewrite Hu1; vm_compute; reflexivity|exact Hg1].
Defined.

(** ** Starting the timer *)

Lemma start_fresh_timer env now ls :
  user env = true → token env = true → duration (examPaper env) ≠ 0 →
  timeLeft (start env now ls) = duration (examPaper env) * 60
  ∧ is_Some (timer (start env now ls))
  ∧ trace (start env now ls) = []
  ∧ startTime (start env now ls) = now
  ∧ mounted (start env now ls) = true
  ∧ localStorage (start env now ls) !! startTimeKey env = Some (VDate now)
  ∧ localStorage (start env now ls) !! timeLeftKey env
    = Some (VSeconds (duration (examPaper env) * 60)).
Proof.
  intros Hu Ht Hd. apply Z.eqb_neq in Hd.
  unfold start, mount, examLoaded, saveEffect, setItem, mounted.
  simpl. rewrite Hu, Ht. simpl. rewrite Hd. simpl.
  repeat split; try done.
  - apply lookup_insert_eq.
  - rewrite lookup_insert_ne
      by (apply not_eq_sym, timeLeftKey_ne_startTimeKey).
    apply lookup_insert_eq.
Qed.

(** C6, as the code has it.  When an authenticated user mounts the panel
    and the paper (with a non-zero duration) arrives, the timer starts
    from the full duration whatever the side-store holds: the counter is
    the duration in seconds, the interval is running, the expiry callback
    has not run, and the stored start time and remaining time are
    overwritten with the fresh ones. *)
Theorem resume_restarts_full_duration env now ls :
  user env = true → token env = true → duration (examPaper env) ≠ 0 →
  let st := start env now ls in
  timeLeft st = duration (examPaper env) * 60
  ∧ is_Some (timer st)
  ∧ countAutoSubmit (trace st) = 0%nat
  ∧ localStorage st !! startTimeKey env = Some (VDate now)
  ∧ localStorage st !! timeLeftKey env
    = Some (VSeconds (duration (examPaper env) * 60)).
Proof.
  intros Hu Ht Hd st.
  destruct (start_fresh_timer env now ls Hu Ht Hd)
    as (H1 & H2 & H3 & _ & _ & H4 & H5).
  subst st. rewrite H3. by repeat split.
Qed.

Lemma resume_restarts_full_duration_witness :
  timeLeft (start env1 7200000 sampleStore) = 60
  ∧ countAutoSubmit (trace (start env1 7200000 sampleStore)) = 0%nat
  ∧ localStorage (start env1 7200000 sampleStore) !! startTimeKey env1
    = Some (VDate 7200000).
Proof.
  assert (duration (examPaper env1) ≠ 0) as Hd by (vm_compute; discriminate).
  destruct (resume_restarts_full_duration env1 7200000 sampleStore
              eq_refl eq_refl Hd) as (H1 & _ & H2 & H3 & _).
  split; [rewrite H1; vm_compute; reflexivity|]. split; [exact H2|exact H3].
Defined.

(** C6 as stated fails: the store holds a start time two hours old for a
    one-minute paper, and mounting neither runs the expiry callback nor
    shortens the countdown; 59 ticks later it still has not run. *)
Lemma resume_after_deadline_counterexample :
  expiredOnResume env1 7200000 sampleStore
  ∧ countAutoSubmit (trace (start env1 7200000 sampleStore)) = 0%nat
  ∧ timeLeft (start env1 7200000 sampleStore) = 60
  ∧ is_Some (timer (start env1 7200000 sampleStore))
  ∧ countAutoSubmit
      (trace (run env1 (ticks 59 true) (start env1 7200000 sampleStore)))
    = 0%nat.
Proof.
  split.
  - exists 0. split; [vm_compute; reflexivity|]. vm_compute. discriminate.
  - repeat split; try (vm_compute; reflexivity).
    eexists. vm_compute. reflexivity.
Qed.

(** C2, as the code has it.  Starting the timer sets the counter to the
    duration in seconds, and an interval callback computes the new counter
    from the previous one alone: zero when it was at most one, else one
    less.  The wall-clock time of the callback plays no part. *)
Theorem tick_decrements_counter env :
  (∀ now ls, mounted (start env now ls) = true →
             duration (examPaper env) ≠ 0 →
             timeLeft (start env now ls) = duration (examPaper env) * 60)
  ∧ (∀ now reply st, is_Some (timer st) →
       timeLeft (step env now (Tick reply) st)
       = if timeLeft st <=? 1 then 0 else timeLeft st - 1).
Proof.
  split.
  - intros now ls Hm Hd. apply start_mounted in Hm as [Hu Ht].
    by apply start_fresh_timer.
  - intros now reply st [sc Hsc]. unfold step.
    by rewrite tick_timeLeft, Hsc.
Qed.

Lemma tick_decrements_counter_witness :
  timeLeft (start env1 0 ∅) = 60
  ∧ timeLeft (step env1 10000 (Tick false) (start env1 0 ∅)) = 59.
Proof.
  destruct (tick_decrements_counter env1) as [H1 H2].
  assert (mounted (start env1 0 ∅) = true) as Hm by (vm_compute; reflexivity).
  assert (duration (examPaper env1) ≠ 0) as Hd by (vm_compute; discriminate).
  assert (is_Some (timer (start env1 0 ∅))) as Ht
    by (eexists; vm_compute; reflexivity).
  split; [rewrite (H1 0 ∅ Hm Hd); vm_compute; reflexivity|].
  rewrite (H2 10000 false _ Ht). rewrite (H1 0 ∅ Hm Hd).
  vm_compute. reflexivity.
Defined.

(** C2 as stated fails: the session starts at time 0 with one minute; the
    first interval callback is delivered 10 seconds later (the tab was
    suspended).  A deadline-based timer would show 50 seconds, the
    component shows 59. *)
Lemma deadline_recompute_counterexample :
  remainingFromDeadline (startTime (start env1 0 ∅))
    (duration (examPaper env1)) 10000 = 50
  ∧ timeLeft (step env1 10000 (Tick false) (start env1 0 ∅)) = 59
  ∧ timeLeft (step env1 10000 (Tick false) (start env1 0 ∅))
    ≠ remainingFromDeadline (startTime (start env1 0 ∅))
        (duration (examPaper env1)) 10000.
Proof.
  repeat split; try (vm_compute; reflexivity). vm_compute. discriminate.
Qed.

(** ** Expiry and the submit guard *)

(** A click while [isSubmitting] is set does nothing. *)
Lemma click_while_submitting_noop env now reply st :
  isSubmitting st = true → step env now (ClickSubmit reply) st = st.
Proof.
  intros H. unfold step. rewrite H. simpl. by rewrite !andb_false_r.
Qed.

(** C1, evaluated.  One minute, one question, no answer.  The 60th tick
    stops the timer and calls [handleSubmit], which shows the confirmation
    prompt.  When the user declines, no request is sent and the session
    stays active with the counter at zero.  When the user accepts, the
    request carries an empty answer list. *)
Theorem expiry_asks_for_confirmation :
  let declined := run env1 (ticks 60 false) (start env1 0 ∅) in
  let accepted := run env1 (ticks 60 true) (start env1 0 ∅) in
  trace declined = [ObsAutoSubmit; ObsConfirm false]
  ∧ inFlight declined = []
  ∧ sessionState declined = active
  ∧ timeLeft declined = 0 ∧ timer declined = None
  ∧ s_answers <$> inFlight accepted = [[]]
  ∧ sessionState accepted = submitting.
Proof.
  cbv zeta. repeat (split; [vm_compute; reflexivity|]).
  vm_compute. reflexivity.
Qed.

(** C4, evaluated.  The only question is answered and submitted by hand;
    the request is under way and a further click does nothing.  The timer
    then runs out: its [handleSubmit] still reads [isSubmitting = false]
    and the empty answer list of the render that started the interval, so
    a second request goes out while the first is under way. *)
Theorem expiry_bypasses_submit_guard :
  length (inFlight submittedOnce) = 1%nat
  ∧ isSubmitting submittedOnce = true
  ∧ (∀ now reply, step env1 now (ClickSubmit reply) submittedOnce
                  = submittedOnce)
  ∧ length (inFlight (run env1 (ticks 60 true) submittedOnce)) = 2%nat
  ∧ s_answers <$> inFlight (run env1 (ticks 60 true) submittedOnce)
    = [[mkSubmittedAnswer 0 "A"]; []].
Proof.
  do 2 (split; [vm_compute; reflexivity|]). split.
  - intros now reply. apply click_while_submitting_noop.
    vm_compute. reflexivity.
  - split; vm_compute; reflexivity.
Qed.

(** * Further properties *)

(** ** Autosave and resume *)

Lemma attempt_keys_distinct env :
  answersKey env ≠ questionIndexKey env
  ∧ answersKey env ≠ timeLeftKey env
  ∧ answersKey env ≠ startTimeKey env
  ∧ questionIndexKey env ≠ timeLeftKey env
  ∧ questionIndexKey env ≠ startTimeKey env
  ∧ timeLeftKey env ≠ startTimeKey env.
Proof.
  unfold answersKey, questionIndexKey, timeLeftKey, startTimeKey.
  repeat split; apply examKey_suffix_ne;
    unfold attemptSuffixes; rewrite ?elem_of_cons; auto 10; discriminate.
Qed.

Lemma mount_mirror env now ls : storeMirrors env (mount env now ls).
Proof.
  unfold storeMirrors, mount, saveEffect, setItem; simpl.
  split; by keys_lookup (attempt_keys_distinct env).
Qed.

Lemma examLoaded_mirror env st :
  storeMirrors env st → storeMirrors env (examLoaded env st).
Proof.
  unfold storeMirrors. intros [Ha Hq].
  destruct (examLoaded_fields env st) as (-> & _).
  assert (currentQuestionIndex (examLoaded env st) = currentQuestionIndex st)
    as -> by (by step_cases).
  unfold examLoaded. destruct (mounted st && negb (paperLoaded st)); [|done].
  destruct (duration (examPaper env) =? 0); [done|].
  unfold setItem; simpl. split; by keys_lookup (attempt_keys_distinct env).
Qed.

Lemma start_mirror env now ls : storeMirrors env (start env now ls).
Proof. apply examLoaded_mirror, mount_mirror. Qed.

Lemma saveEffect_mirror env st : storeMirrors env (saveEffect env st).
Proof.
  unfold storeMirrors, saveEffect, setItem; simpl. split; by keys_lookup (attempt_keys_distinct env).
Qed.

Lemma step_mirror env now e st :
  storeMirrors env st → mounted (step env now e st) = true →
  storeMirrors env (step env now e st).
Proof.
  intros Hmir Hm. destruct e as [r|v| | |r| |err|].
  - revert Hmir Hm. unfold storeMirrors. by step_cases.
  - destruct (step_answerChange env now v st)
      as [->|(st' & _ & _ & _ & ->)]; [done|]. apply saveEffect_mirror.
  - unfold step in *. destruct (mounted st && paperLoaded st); [|done].
    apply saveEffect_mirror.
  - unfold step in *. destruct (mounted st && paperLoaded st); [|done].
    apply saveEffect_mirror.
  - revert Hmir Hm. unfold storeMirrors. by step_cases.
  - revert Hmir Hm. unfold storeMirrors. by step_cases.
  - revert Hmir Hm. unfold storeMirrors. by step_cases.
  - revert Hmir Hm. unfold storeMirrors. by step_cases.
Qed.

Lemma run_mirror env evs st :
  storeMirrors env st → mounted (run env evs st) = true →
  storeMirrors env (run env evs st).
Proof.
  induction evs as [|ev evs IH] using rev_ind; [done|].
  rewrite run_snoc. intros Hmir Hm. apply step_mirror; [|done].
  apply IH; [done|]. by eapply step_mounted.
Qed.

Lemma mount_restores env now st :
  storeMirrors env st →
  answers (mount env now (localStorage st)) = answers st
  ∧ currentQuestionIndex (mount env now (localStorage st))
    = currentQuestionIndex st.
Proof. unfold storeMirrors, mount. intros [-> ->]. done. Qed.

(** X1. Autosave and resume.  While the panel of a started session is
    still mounted, whatever has happened so far, a reload brings back the
    answer list and the question on display: mounting the component again
    on the side-store of that moment restores both, before and after the
    paper arrives. *)
Theorem resume_restores_answers_and_index env now ls evs now' :
  let st := run env evs (start env now ls) in
  mounted st = true →
  answers (mount env now' (localStorage st)) = answers st
  ∧ currentQuestionIndex (mount env now' (localStorage st))
    = currentQuestionIndex st
  ∧ answers (start env now' (localStorage st)) = answers st
  ∧ currentQuestionIndex (start env now' (localStorage st))
    = currentQuestionIndex st.
Proof.
  intros st Hm.
  pose proof (run_mirror env evs _ (start_mirror env now ls) Hm) as Hmir.
  destruct (mount_restores env now' st Hmir) as [Ha Hq].
  rewrite start_answers. repeat split; try done.
  unfold start.
  assert (∀ s, currentQuestionIndex (examLoaded env s)
               = currentQuestionIndex s) as -> by (intros s; by step_cases).
  done.
Qed.

Lemma resume_restores_answers_and_index_witness :
  answers (mount env3 99 (localStorage (run env3 twoOfThree (start env3 0 ∅))))
  = [mkAnswer 0 "A" "q0"; mkAnswer 1 "B" "q1"]
  ∧ currentQuestionIndex
      (mount env3 99 (localStorage (run env3 twoOfThree (start env3 0 ∅))))
    = 2%nat.
Proof.
  assert (mounted (run env3 twoOfThree (start env3 0 ∅)) = true) as Hm
    by (vm_compute; reflexivity).
  destruct (resume_restores_answers_and_index env3 0 ∅ twoOfThree 99 Hm)
    as (-> & -> & _).
  split; vm_compute; reflexivity.
Defined.

(** ** Navigation *)

Lemma step_index env now e st :
  (currentQuestionIndex st < length (questions (examPaper env)))%nat →
  (currentQuestionIndex (step env now e st)
   < length (questions (examPaper env)))%nat.
Proof.
  intros Hlt. destruct e as [r|v| | |r| |err|]; try (by step_cases).
  - destruct (step_answerChange env now v st)
      as [->|(st' & _ & _ & H & ->)]; [done|].
    apply handleAnswerChange_fields in H as (_ & H & _).
    unfold saveEffect, setItem; simpl. by rewrite H.
  - revert Hlt. step_cases; try done.
    all: intros; repeat match goal with
                        | H : (_ <? _) = true |- _ => apply Z.ltb_lt in H
                        | H : (_ <? _)%nat = true |- _ => apply Nat.ltb_lt in H
                        end; lia.
  - revert Hlt. step_cases; try done. all: intros; lia.
Qed.

Lemma run_index env evs st :
  (currentQuestionIndex st < length (questions (examPaper env)))%nat →
  (currentQuestionIndex (run env evs st)
   < length (questions (examPaper env)))%nat.
Proof.
  revert st. induction evs as [|ev evs IH]; intros st H; [done|].
  rewrite run_cons. by apply IH, step_index.
Qed.

(** X2. Navigation stays within the questions.  When the question on
    display exists at the start, it exists after every run: no sequence of
    Next and Previous (or of any other event) leads past the first or the
    last question.  Hence an answer change on the mounted, loaded panel
    always finds its question and sets an answer. *)
Theorem navigation_stays_in_range env evs st0 :
  (currentQuestionIndex st0 < length (questions (examPaper env)))%nat →
  let st := run env evs st0 in
  (currentQuestionIndex st < length (questions (examPaper env)))%nat
  ∧ (∀ v, mounted st = true → paperLoaded st = true →
          setAnswerCall env (AnswerChange v) st
          = [(currentQuestionIndex st, v)]).
Proof.
  intros H0 st. pose proof (run_index env evs st0 H0) as Hlt. fold st in Hlt.
  split; [done|]. intros v Hm Hp. simpl. rewrite Hm, Hp. simpl.
  destruct (proj2 (handleAnswerChange_is_Some env v st) Hlt) as [st' ->].
  done.
Qed.

Lemma navigation_stays_in_range_witness :
  (currentQuestionIndex (run env3 pastTheEnd (start env3 0 ∅)) < 3)%nat
  ∧ setAnswerCall env3 (AnswerChange "C")
      (run env3 pastTheEnd (start env3 0 ∅))
    = [(1%nat, "C")].
Proof.
  assert (currentQuestionIndex (start env3 0 ∅)
          < length (questions (examPaper env3)))%nat as H0
    by (vm_compute; lia).
  destruct (navigation_stays_in_range env3 pastTheEnd (start env3 0 ∅) H0)
    as [H1 H2].
  split; [exact H1|].
  rewrite (H2 "C"); [vm_compute; reflexivity|vm_compute; reflexivity..].
Defined.

Lemma saveEffect_id env st : storeMirrors env st → saveEffect env st = st.
Proof.
  intros [Ha Hq]. destruct st as [tl cq an sb stt tm pl loc sto inf tos tr].
  unfold saveEffect, setItem, set_localStorage; simpl in *. f_equal.
  rewrite (insert_id sto _ _ Ha). by rewrite insert_id.
Qed.

Lemma next_then_previous env t t' st :
  storeMirrors env st → mounted st = true → paperLoaded st = true →
  (currentQuestionIndex st + 1 < length (questions (examPaper env)))%nat →
  step env t' Previous (step env t Next st) = st.
Proof.
  destruct (attempt_keys_distinct env) as (Hne & _).
  unfold storeMirrors. intros [Ha Hq] Hm Hp Hlt. revert Ha Hq Hm Hp Hlt.
  step_cases; intros; bool_arith; try lia.
  f_equal; [lia|]. apply map_eq. intros k.
  rewrite !lookup_insert. repeat case_decide; subst; try congruence.
  rewrite Hq. do 2 f_equal. lia.
Qed.

Lemma next_on_last env t st :
  storeMirrors env st → mounted st = true → paperLoaded st = true →
  (currentQuestionIndex st + 1 = length (questions (examPaper env)))%nat →
  step env t Next st = st.
Proof.
  intros Hmir Hm Hp Heq. unfold step. rewrite Hm, Hp. simpl.
  unfold handleNext.
  assert ((Z.of_nat (currentQuestionIndex st)
           <? Z.of_nat (length (questions (examPaper env))) - 1) = false)
    as -> by (apply Z.ltb_ge; lia).
  by apply saveEffect_id.
Qed.

Lemma previous_on_first env t st :
  storeMirrors env st → mounted st = true → paperLoaded st = true →
  currentQuestionIndex st = 0%nat → step env t Previous st = st.
Proof.
  intros Hmir Hm Hp Heq. unfold step. rewrite Hm, Hp. simpl.
  unfold handlePrevious. rewrite Heq. simpl. by apply saveEffect_id.
Qed.

(** X3. Next and Previous undo each other.  On the mounted, loaded panel
    of a started session: when a later question exists, Next followed by
    Previous gives back the very same state, side-store included; on the
    last question Next changes nothing and on the first question Previous
    changes nothing. *)
Theorem next_previous_cancel env now ls evs t t' :
  let st := run env evs (start env now ls) in
  let n := length (questions (examPaper env)) in
  mounted st = true → paperLoaded st = true →
  ((currentQuestionIndex st + 1 < n)%nat →
   step env t' Previous (step env t Next st) = st)
  ∧ ((currentQuestionIndex st + 1 = n)%nat → step env t Next st = st)
  ∧ (currentQuestionIndex st = 0%nat → step env t Previous st = st).
Proof.
  intros st n Hm Hp.
  pose proof (run_mirror env evs _ (start_mirror env now ls) Hm) as Hmir.
  split; [|split]; intros H.
  - by apply next_then_previous.
  - by apply next_on_last.
  - by apply previous_on_first.
Qed.

Lemma next_previous_cancel_witness :
  step env3 8 Previous (step env3 7 Next (run env3 pastTheEnd (start env3 0 ∅)))
  = run env3 pastTheEnd (start env3 0 ∅)
  ∧ step env3 7 Previous (start env3 0 ∅) = start env3 0 ∅.
Proof.
  assert (mounted (run env3 pastTheEnd (start env3 0 ∅)) = true) as Hm
    by (vm_compute; reflexivity).
  assert (paperLoaded (run env3 pastTheEnd (start env3 0 ∅)) = true) as Hp
    by (vm_compute; reflexivity).
  destruct (next_previous_cancel env3 0 ∅ pastTheEnd 7 8 Hm Hp)
    as (H1 & _ & _).
  assert (mounted (run env3 [] (start env3 0 ∅)) = true) as Hm0
    by (vm_compute; reflexivity).
  assert (paperLoaded (run env3 [] (start env3 0 ∅)) = true) as Hp0
    by (vm_compute; reflexivity).
  destruct (next_previous_cancel env3 0 ∅ [] 7 8 Hm0 Hp0) as (_ & _ & H3).
  split.
  - apply H1. vm_compute. lia.
  - apply H3. vm_compute. reflexivity.
Defined.

(** ** Submitting a complete paper *)

Lemma full_indices_permutation (l : list nat) (n : nat) :
  NoDup l → Forall (λ i, (i < n)%nat) l → length l = n → l ≡ₚ seq 0 n.
Proof.
  intros Hnd Hall Hlen. apply submseteq_length_Permutation.
  - apply NoDup_submseteq; [done|]. intros x Hx. apply elem_of_seq.
    rewrite Forall_forall in Hall. apply Hall in Hx. lia.
  - rewrite length_seq. lia.
Qed.

(** X4. A complete paper is submitted without a prompt.  In a session that
    started with no answers, when the answer list is as long as the
    question list, a click on the submit button sends the request at once,
    without a confirmation prompt whatever the user would have replied,
    and the request carries every question index exactly once. *)
Theorem complete_submit_without_prompt env now0 ls evs now reply :
  let st := run env evs (start env now0 ls) in
  let p := payload env (scope_of st) st now in
  answers (start env now0 ls) = [] →
  mounted st = true → paperLoaded st = true →
  isLastQuestion env st = true → isSubmitting st = false →
  length (answers st) = length (questions (examPaper env)) →
  step env now (ClickSubmit reply) st
  = observe (ObsMutate p)
      (set_inFlight (inFlight st ++ [p]) (set_isSubmitting true st))
  ∧ sa_questionIndex <$> s_answers p
    ≡ₚ seq 0 (length (questions (examPaper env))).
Proof.
  intros st p H0 Hm Hp Hlast Hsub Hlen.
  destruct (run_inv env evs _ (start_inv env now0 ls H0))
    as (Ha & Hr & _ & _).
  fold st in Ha, Hr.
  destruct (start_mounted env now0 ls (run_mounted _ _ _ Hm)) as [Hu _].
  split.
  - unfold step. rewrite Hm, Hp, Hlast, Hsub. simpl.
    unfold handleSubmit, scope_of. cbn [sc_isSubmitting sc_examPaper
      sc_answers]. rewrite Hsub, Hu, Hp, Hlen, Nat.ltb_irrefl. done.
  - subst p. rewrite payload_indices. unfold scope_of; simpl.
    apply full_indices_permutation; [done..|].
    unfold indicesOf. by rewrite length_fmap.
Qed.

Lemma complete_submit_without_prompt_witness :
  trace (step env3 9 (ClickSubmit false)
           (run env3 threeOfThree (start env3 0 ∅)))
  = [ObsMutate
       (mkSubmission "p3"
          [mkSubmittedAnswer 0 "A"; mkSubmittedAnswer 1 "B";
           mkSubmittedAnswer 2 "C"] 0 9 true)].
Proof.
  assert (answers (start env3 0 ∅) = []) as H0 by (vm_compute; reflexivity).
  assert (mounted (run env3 threeOfThree (start env3 0 ∅)) = true) as Hm
    by (vm_compute; reflexivity).
  assert (paperLoaded (run env3 threeOfThree (start env3 0 ∅)) = true) as Hp
    by (vm_compute; reflexivity).
  assert (isLastQuestion env3 (run env3 threeOfThree (start env3 0 ∅)) = true)
    as Hl by (vm_compute; reflexivity).
  assert (isSubmitting (run env3 threeOfThree (start env3 0 ∅)) = false)
    as Hs by (vm_compute; reflexivity).
  assert (length (answers (run env3 threeOfThree (start env3 0 ∅)))
          = length (questions (examPaper env3))) as Hlen
    by (vm_compute; reflexivity).
  destruct (complete_submit_without_prompt env3 0 ∅ threeOfThree 9 false
              H0 Hm Hp Hl Hs Hlen) as [-> _].
  vm_compute. reflexivity.
Defined.

(** ** What a request carries *)

Lemma start_fresh_fields env now ls :
  startTime (start env now ls) = now ∧ trace (start env now ls) = [].
Proof.
  unfold start.
  destruct (examLoaded_fields env (mount env now ls)) as (_ & -> & _).
  destruct (mount_fields env now ls) as (-> & _ & _ & _ & _ & _ & Hs & _).
  split; [|done]. rewrite <- Hs. by step_cases.
Qed.

Lemma step_trace_extends env now e st :
  ∃ new, trace (step env now e st) = trace st ++ new
         ∧ Forall (stamped env (startTime st) now) new.
Proof.
  destruct e as [r|v| | |r| |err|].
  2: { exists []. rewrite app_nil_r. split; [|constructor].
       destruct (step_answerChange env now v st)
         as [->|(st' & _ & _ & H & ->)]; [done|].
       apply handleAnswerChange_fields in H
         as (_ & _ & _ & _ & _ & _ & _ & _ & _ & _ & H).
       unfold saveEffect, setItem; simpl. done. }
  all: step_cases;
    first [ by (exists []; rewrite app_nil_r; split; [|constructor])
          | eexists; split; [rewrite <- ?app_assoc; reflexivity|];
            repeat constructor ].
Qed.

Lemma step_startTime env now e st :
  startTime (step env now e st) = startTime st.
Proof.
  destruct e as [r|v| | |r| |err|]; try (by step_cases).
  destruct (step_answerChange env now v st)
    as [->|(st' & _ & _ & H & ->)]; [done|].
  by apply handleAnswerChange_fields in H as (_ & _ & _ & H & _).
Qed.

Lemma run_startTime env evs st :
  startTime (run env evs st) = startTime st.
Proof.
  induction evs as [|ev evs IH] using rev_ind; [done|].
  by rewrite run_snoc, step_startTime.
Qed.

(** X5. What every request carries.  Whatever happens in a session, each
    submission request in its trace names the paper of the session, carries
    the moment the panel was mounted as start time, is flagged as
    submitted, and was sent by one event of the run, whose moment of
    delivery is its end time. *)
Theorem requests_carry_session_data env now0 ls evs s :
  ObsMutate s ∈ trace (run env evs (start env now0 ls)) →
  s_examPaper s = paper_id (examPaper env)
  ∧ s_startTime s = now0
  ∧ s_isSubmitted s = true
  ∧ ∃ pre t e post,
      evs = pre ++ (t, e) :: post
      ∧ sends env t e (run env pre (start env now0 ls)) s
      ∧ s_endTime s = t.
Proof.
  destruct (start_fresh_fields env now0 ls) as [Ht Htr].
  induction evs as [|[t e] evs IH] using rev_ind.
  - simpl. rewrite Htr. by intros ?%elem_of_nil.
  - rewrite run_snoc. simpl.
    destruct (step_trace_extends env t e (run env evs (start env now0 ls)))
      as (new & Hnew & Hall).
    rewrite Hnew, elem_of_app. intros [Hold|Hin].
    + destruct (IH Hold) as (H1 & H2 & H3 & pre & t' & e' & post & -> & H4).
      repeat split; try done.
      exists pre, t', e', (post ++ [(t, e)]).
      by rewrite <- app_assoc.
    + rewrite Forall_forall in Hall. pose proof (Hall _ Hin) as Hs.
      simpl in Hs. rewrite run_startTime, Ht in Hs.
      destruct Hs as (H1 & H2 & H3 & H4). repeat split; try done.
      exists evs, t, e, []. split; [done|]. split; [|done].
      by exists new.
Qed.

Lemma requests_carry_session_data_witness :
  s_startTime (mkSubmission "p1" [mkSubmittedAnswer 0 "A"] 0 2 true) = 0
  ∧ ∃ pre t e post,
      [(1, AnswerChange "A"); (2, ClickSubmit true); (3, Tick true)]
      = pre ++ (t, e) :: post
      ∧ sends env1 t e (run env1 pre (start env1 0 ∅))
          (mkSubmission "p1" [mkSubmittedAnswer 0 "A"] 0 2 true)
      ∧ s_endTime (mkSubmission "p1" [mkSubmittedAnswer 0 "A"] 0 2 true) = t.
Proof.
  assert (ObsMutate (mkSubmission "p1" [mkSubmittedAnswer 0 "A"] 0 2 true)
          ∈ trace (run env1 [(1, AnswerChange "A"); (2, ClickSubmit true);
                             (3, Tick true)]
                     (start env1 0 ∅))) as Hin
    by (vm_compute; left).
  destruct (requests_carry_session_data env1 0 ∅
              [(1, AnswerChange "A"); (2, ClickSubmit true); (3, Tick true)]
              _ Hin)
    as (_ & H1 & _ & H2).
  split; [exact H1|exact H2].
Defined.

(** ** The request sent at expiry *)

Lemma step_timer env now e st :
  timer (step env now e st) = timer st ∨ timer (step env now e st) = None.
Proof.
  destruct e as [r|v| | |r| |err|]; try (step_cases; by auto).
  destruct (step_answerChange env now v st)
    as [->|(st' & _ & _ & H & ->)]; [by left|].
  apply handleAnswerChange_fields in H as (_ & _ & _ & _ & H & _).
  left. unfold saveEffect, setItem; simpl. done.
Qed.

Lemma run_timer env evs st :
  timer (run env evs st) = timer st ∨ timer (run env evs st) = None.
Proof.
  induction evs as [|ev evs IH] using rev_ind; [by left|].
  rewrite run_snoc.
  destruct (step_timer env ev.1 ev.2 (run env evs st)) as [->| ->]; auto.
Qed.

Lemma start_timer env now ls sc :
  timer (start env now ls) = Some sc → sc = capturedScope (start env now ls).
Proof.
  unfold start, capturedScope.
  destruct (examLoaded_fields env (mount env now ls))
    as (-> & _ & _ & _ & _ & [-> | ->]).
  - destruct (mount_fields env now ls) as (_ & _ & -> & _). done.
  - destruct (mount_fields env now ls) as (_ & _ & _ & -> & _).
    by intros [= <-].
Qed.

Lemma expiry_tick env now sc st :
  timer st = Some sc → timeLeft st ≤ 1 → user env = true →
  sc_isSubmitting sc = false → sc_examPaper sc = true →
  inFlight (step env now (Tick true) st)
  = inFlight st ++ [payload env sc st now].
Proof.
  intros Ht Hl Hu Hs Hp. revert Ht Hl Hs Hp.
  step_cases; intros; simplify_eq/=; try done; bool_arith;
    repeat match goal with
           | H : (_ <=? _) = false |- _ => apply Z.leb_gt in H
           end; try lia.
  all: rewrite Hu in *; simplify_eq/=.
Qed.

(** The mount from the query cache runs the same timer effect. *)
Lemma examLoaded_timerEffect env st :
  mounted st = true → paperLoaded st = false →
  examLoaded env st = timerEffect env (set_paperLoaded true st).
Proof.
  intros Hm Hp. unfold examLoaded, timerEffect. rewrite Hm, Hp. done.
Qed.

Lemma startCached_start env now ls :
  user env = true → token env = true →
  startCached env now ls
  = set_timer
      (if duration (examPaper env) =? 0 then None else Some firstRenderScope)
      (start env now ls).
Proof.
  intros Hu Ht.
  unfold startCached, timerEffect, firstRenderScope. reduce_handlers.
  rewrite Hu, Ht. cbv beta iota zeta delta [andb].
  destruct (attempt_keys_distinct env) as (? & ? & ? & ? & ? & ?).
  destruct (duration (examPaper env) =? 0);
    cbv beta iota zeta delta [andb negb]; reduce_handlers; f_equal;
    apply map_eq; intros k;
    destruct (decide (k = questionIndexKey env)) as [->|?];
    try destruct (decide (k = answersKey env)) as [->|?];
    try destruct (decide (k = timeLeftKey env)) as [->|?];
    try destruct (decide (k = startTimeKey env)) as [->|?];
    repeat first
      [ rewrite lookup_insert_eq
      | rewrite lookup_insert_ne by (done || (apply not_eq_sym; done)) ];
    done.
Qed.

Lemma startCached_fields env now ls :
  user env = true → token env = true →
  answers (startCached env now ls) = answers (start env now ls)
  ∧ (timer (startCached env now ls) = None
     ∨ timer (startCached env now ls) = Some firstRenderScope).
Proof.
  intros Hu Ht. rewrite (startCached_start env now ls Hu Ht).
  split; [done|]. unfold set_timer; simpl.
  destruct (duration (examPaper env) =? 0); auto.
Qed.

(** Without a user or a token the redirect unmounts the panel and the
    cleanup clears the interval. *)
Lemma startCached_timer_auth env now ls :
  is_Some (timer (startCached env now ls)) →
  user env = true ∧ token env = true.
Proof.
  unfold startCached, timerEffect. reduce_handlers.
  destruct (user env), (token env);
    cbv beta iota zeta delta [andb negb]; try done;
    destruct (duration (examPaper env) =? 0);
    cbv beta iota zeta delta [andb negb]; reduce_handlers;
    by intros [? ?].
Qed.

Lemma run_timer_scope env evs st sc sc' :
  timer st = None ∨ timer st = Some sc →
  timer (run env evs st) = Some sc' → timer (run env evs st) = Some sc.
Proof.
  intros Hst Hrun. destruct (run_timer env evs st) as [H|H]; [|congruence].
  rewrite H in *. destruct Hst; congruence.
Qed.

(** X6. The request sent at expiry carries the answers of the render that
    started the interval.  As long as the interval of a session runs, the
    scope its callback reads is the one of the render whose commit ran the
    timer effect, with [isSubmitting] false.  When the paper arrived after
    the mount, that render had the answers the session started with (the
    restored ones); when the paper came from the query cache, it was the
    first render, where the answer list is empty although the same answers
    are restored for display.  So when the countdown reaches zero and the
    user accepts the prompt, if there is one, the request that goes out
    carries the answers of the start in the first case and no answer in
    the second, whatever was answered since. *)
Theorem expiry_request_has_captured_answers env now0 ls evs now :
  (let st0 := start env now0 ls in
   let st := run env evs st0 in
   is_Some (timer st) → timeLeft st ≤ 1 → user env = true →
   timer st = Some (capturedScope st0)
   ∧ inFlight (step env now (Tick true) st)
     = inFlight st ++ [payload env (capturedScope st0) st now]
   ∧ s_answers (payload env (capturedScope st0) st now)
     = submittedAnswers (answers st0))
  ∧ (let st0 := startCached env now0 ls in
     let st := run env evs st0 in
     is_Some (timer st) → timeLeft st ≤ 1 →
     answers st0 = answers (start env now0 ls)
     ∧ timer st = Some firstRenderScope
     ∧ inFlight (step env now (Tick true) st)
       = inFlight st ++ [payload env firstRenderScope st now]
     ∧ s_answers (payload env firstRenderScope st now) = []).
Proof.
  split.
  - intros st0 st [sc Hsc] Hl Hu.
    assert (timer st = Some (capturedScope st0)) as Ht.
    { destruct (run_timer env evs st0) as [H|H]; fold st in H;
        [|congruence].
      rewrite H in Hsc |- *.
      by rewrite (start_timer env now0 ls sc Hsc) in Hsc. }
    split; [done|]. split; [|done].
    by apply expiry_tick.
  - intros st0 st [sc Hsc] Hl.
    assert (is_Some (timer st0)) as Hst0.
    { destruct (run_timer env evs st0) as [H|H]; fold st in H;
        [|congruence]. rewrite <- H. by exists sc. }
    destruct (startCached_timer_auth env now0 ls Hst0) as [Hu Htok].
    destruct (startCached_fields env now0 ls Hu Htok) as [Ha Ht0].
    split; [done|].
    assert (timer st = Some firstRenderScope) as Ht
      by (by eapply run_timer_scope).
    split; [done|]. split; [|done].
    by apply expiry_tick.
Qed.

Lemma expiry_request_has_captured_answers_witness :
  answers (start env1 0 sampleStore) = [mkAnswer 0 "B" "q0"]
  ∧ answers (run env1 answeredThenWaiting (start env1 0 sampleStore))
    = [mkAnswer 0 "A" "q0"]
  ∧ s_answers
      <$> inFlight
            (step env1 60 (Tick true)
               (run env1 answeredThenWaiting (start env1 0 sampleStore)))
    = [[mkSubmittedAnswer 0 "B"]]
  ∧ answers (startCached env1 0 sampleStore) = [mkAnswer 0 "B" "q0"]
  ∧ s_answers
      <$> inFlight
            (step env1 60 (Tick true)
               (run env1 answeredThenWaiting
                  (startCached env1 0 sampleStore)))
    = [[]].
Proof.
  assert (is_Some (timer (run env1 answeredThenWaiting
                            (start env1 0 sampleStore))))
    as Ht by (eexists; vm_compute; reflexivity).
  assert (timeLeft (run env1 answeredThenWaiting (start env1 0 sampleStore))
          ≤ 1)
    as Hl by (vm_compute; discriminate).
  assert (is_Some (timer (run env1 answeredThenWaiting
                            (startCached env1 0 sampleStore))))
    as Ht' by (eexists; vm_compute; reflexivity).
  assert (timeLeft (run env1 answeredThenWaiting
                      (startCached env1 0 sampleStore)) ≤ 1)
    as Hl' by (vm_compute; discriminate).
  destruct (expiry_request_has_captured_answers env1 0 sampleStore
              answeredThenWaiting 60) as [Hcold Hwarm].
  destruct (Hcold Ht Hl eq_refl) as (_ & -> & _).
  destruct (Hwarm Ht' Hl') as (Ha & _ & -> & _).
  split; [vm_compute; reflexivity|].
  split; [vm_compute; reflexivity|].
  split; [vm_compute; reflexivity|].
  split; [rewrite Ha; vm_compute; reflexivity|].
  vm_compute; reflexivity.
Defined.

(** ** One request at a time on the manual path *)

Lemma step_count_mono env now e st :
  (countAutoSubmit (trace st)
   ≤ countAutoSubmit (trace (step env now e st)))%nat.
Proof.
  destruct e as [r|v| | |r| |err|];
    try (step_cases; rewrite ?countAutoSubmit_app; simpl; lia).
  destruct (step_answerChange env now v st)
    as [->|(st' & _ & _ & H & ->)]; [done|].
  apply handleAnswerChange_fields in H
    as (_ & _ & _ & _ & _ & _ & _ & _ & _ & _ & H).
  unfold saveEffect, setItem; simpl. by rewrite H.
Qed.

Lemma step_singleFlight env now e st :
  countAutoSubmit (trace (step env now e st)) = 0%nat →
  singleFlight st → singleFlight (step env now e st).
Proof.
  unfold singleFlight. intros Hc Hs. destruct e as [r|v| | |r| |err|].
  2: { destruct (step_answerChange env now v st)
         as [->|(st' & _ & _ & H & ->)]; [done|].
       apply handleAnswerChange_fields in H
         as (_ & _ & Hi & _ & _ & _ & _ & _ & Hf & _).
       unfold saveEffect, setItem; simpl. by rewrite Hi, Hf. }
  all: revert Hc Hs; step_cases; rewrite ?countAutoSubmit_app; simpl;
    intros; rewrite ?length_app in *; simpl in *;
    try lia; try (intuition (try congruence; try lia)).
  all: do 2 (try match goal with
                 | l : list Submission |- _ => destruct l; simpl in *
                 end);
    intuition (try congruence; try lia).
Qed.

Lemma run_singleFlight env evs st :
  countAutoSubmit (trace (run env evs st)) = 0%nat →
  singleFlight st → singleFlight (run env evs st).
Proof.
  induction evs as [|ev evs IH] using rev_ind; [done|].
  rewrite run_snoc. intros Hc Hs. apply step_singleFlight; [done|].
  apply IH; [|done].
  pose proof (step_count_mono env ev.1 ev.2 (run env evs st)). lia.
Qed.

(** X7. One request at a time on the manual path.  As long as the timer
    of a session has not run out, at most one submission request is under
    way, and [isSubmitting] is set whenever one is: clicks on the submit
    button never stack requests. *)
Theorem manual_submits_never_overlap env now ls evs :
  let st := run env evs (start env now ls) in
  countAutoSubmit (trace st) = 0%nat →
  (length (inFlight st) ≤ 1)%nat
  ∧ (inFlight st ≠ [] → isSubmitting st = true).
Proof.
  intros st Hc. apply run_singleFlight; [done|].
  unfold singleFlight, start.
  destruct (examLoaded_fields env (mount env now ls))
    as (_ & _ & -> & _).
  destruct (mount_fields env now ls) as (_ & -> & _). simpl. split; [lia|done].
Qed.

Lemma manual_submits_never_overlap_witness :
  (length (inFlight (run env1 impatientClicks (start env1 0 ∅))) ≤ 1)%nat.
Proof.
  refine (proj1 (manual_submits_never_overlap env1 0 ∅ impatientClicks _)).
  vm_compute. reflexivity.
Defined.

(** ** A mount from the query cache *)

Lemma step_withScope env now e st sc :
  countAutoSubmit (trace (step env now e st)) = countAutoSubmit (trace st) →
  step env now e (withScope sc st) = withScope sc (step env now e st).
Proof.
  unfold withScope. destruct e as [r|v| | |r| |err|].
  2: { intros _. simpl.
       destruct st as [tl cq an sb stt tm pl loc sto inf tos tr].
       unfold mounted, handleAnswerChange; simpl.
       destruct loc; simpl; [|done]. destruct pl; simpl; [|done].
       destruct (findIndex _ an); simpl;
         destruct (questions (examPaper env) !! cq); simpl; done. }
  all: unfold step, isLastQuestion; step_cases; intros;
    rewrite ?countAutoSubmit_app in *;
    simpl in *; try done; try lia.
Qed.

Lemma run_withScope env evs st sc :
  countAutoSubmit (trace (run env evs st)) = countAutoSubmit (trace st) →
  run env evs (withScope sc st) = withScope sc (run env evs st).
Proof.
  induction evs as [|ev evs IH] using rev_ind; [done|].
  rewrite !run_snoc. intros H.
  pose proof (step_count_mono env ev.1 ev.2 (run env evs st)) as Hstep.
  assert (countAutoSubmit (trace st)
          ≤ countAutoSubmit (trace (run env evs st)))%nat as Hrun.
  { clear. induction evs as [|ev evs IH] using rev_ind; [done|].
    rewrite run_snoc.
    pose proof (step_count_mono env ev.1 ev.2 (run env evs st)). lia. }
  rewrite IH by lia. apply step_withScope. lia.
Qed.

Lemma startCached_withScope env now ls :
  user env = true → token env = true →
  startCached env now ls = withScope firstRenderScope (start env now ls).
Proof.
  intros Hu Ht. rewrite (startCached_start env now ls Hu Ht).
  unfold withScope. f_equal.
  unfold start, mount, examLoaded, saveEffect, setItem, mounted.
  simpl. rewrite Hu, Ht. simpl.
  by destruct (duration (examPaper env) =? 0).
Qed.

(** X21. Until the countdown runs out, a session mounted from the query
    cache goes through the same states as the session whose paper arrived
    after the mount, event by event; the two differ only in the scope the
    interval callback keeps, which after a mount from the cache holds an
    empty answer list. *)
Theorem cached_mount_agrees_until_expiry env now ls evs :
  user env = true → token env = true →
  countAutoSubmit (trace (run env evs (start env now ls))) = 0%nat →
  run env evs (startCached env now ls)
  = withScope firstRenderScope (run env evs (start env now ls)).
Proof.
  intros Hu Ht H0. rewrite (startCached_withScope env now ls Hu Ht).
  apply run_withScope.
  destruct (start_fresh_fields env now ls) as [_ ->]. by rewrite H0.
Qed.

Lemma cached_mount_agrees_until_expiry_witness :
  answers (run env3 twoOfThree (startCached env3 0 ∅))
  = [mkAnswer 0 "A" "q0"; mkAnswer 1 "B" "q1"]
  ∧ timer (run env3 twoOfThree (startCached env3 0 ∅))
    = Some firstRenderScope.
Proof.
  assert (countAutoSubmit (trace (run env3 twoOfThree (start env3 0 ∅)))
          = 0%nat) as H0 by (vm_compute; reflexivity).
  rewrite (cached_mount_agrees_until_expiry env3 0 ∅ twoOfThree
             eq_refl eq_refl H0).
  split; vm_compute; reflexivity.
Defined.

(** ** Leaving the panel *)

Lemma step_leftClean env now e st :
  duration (examPaper env) ≠ 0 →
  leftClean env st → leftClean env (step env now e st).
Proof.
  intros Hd%Z.eqb_neq. unfold leftClean.
  destruct e as [r|v| | |r| |err|].
  2: { destruct (step_answerChange env now v st)
         as [->|(st' & Hm & _ & H & ->)]; [done|].
       apply handleAnswerChange_fields in H
         as (_ & _ & _ & _ & _ & Hp & Hl & _).
       unfold saveEffect, setItem, mounted in *; simpl.
       rewrite Hp, Hl. intros [-> _]. split; [done|]. by rewrite Hm. }
  all: revert Hd; step_cases; intros; simplify_eq/=;
    repeat split; intros; try done; try congruence;
    rewrite ?lookup_delete_None; try (by intuition auto).
  all: repeat match goal with
              | H : _ ∧ _ |- _ => destruct H
              | H : ?b = true |- _ => is_var b; subst b
              end;
    repeat match goal with
           | H : (_ =? _) = false, H' : context [_ =? _] |- _ =>
               rewrite H in H'
           end;
    simpl in *; try congruence; intuition congruence.
Qed.

Lemma run_leftClean env evs st :
  duration (examPaper env) ≠ 0 →
  leftClean env st → leftClean env (run env evs st).
Proof.
  intros Hd H. induction evs as [|ev evs IH] using rev_ind; [done|].
  rewrite run_snoc. by apply step_leftClean.
Qed.

Lemma start_leftClean env now ls :
  mounted (start env now ls) = true → leftClean env (start env now ls).
Proof.
  intros Hm. unfold leftClean. rewrite Hm. split; [|done].
  revert Hm. unfold start. by step_cases.
Qed.

(** ** What clears the side-store, and when *)

Lemma step_keeps_answer_entries env now e st k :
  e ≠ SubmitSucceeded →
  k = answersKey env ∨ k = questionIndexKey env →
  is_Some (localStorage st !! k) →
  is_Some (localStorage (step env now e st) !! k).
Proof.
  intros He Hk Hsome.
  assert (k ≠ timeLeftKey env ∧ k ≠ startTimeKey env) as [Hk1 Hk2].
  { destruct (attempt_keys_distinct env) as (? & ? & ? & ? & ? & ?).
    by destruct Hk as [-> | ->]. }
  assert (∀ st', is_Some (localStorage st' !! k) →
                 is_Some (localStorage (saveEffect env st') !! k)) as Hsave.
  { intros st' H. unfold saveEffect, setItem; simpl.
    rewrite !lookup_insert_is_Some'. tauto. }
  destruct e as [r|v| | |r| |err|]; try done.
  2: { destruct (step_answerChange env now v st)
         as [->|(st' & _ & _ & H & ->)]; [done|].
       apply Hsave.
       apply handleAnswerChange_fields in H
         as (_ & _ & _ & _ & _ & _ & _ & -> & _). done. }
  2,3: unfold step; destruct (mounted st && paperLoaded st); [|done];
    apply Hsave; revert Hsome; by step_cases.
  all: revert Hsome; step_cases; intros; simplify_eq/=; try done;
    by rewrite !lookup_delete_ne by (by apply not_eq_sym).
Qed.

Lemma step_unmount_clears_timer_entries env now e st :
  mounted st = true → paperLoaded st = true →
  duration (examPaper env) ≠ 0 →
  mounted (step env now e st) = false →
  timer (step env now e st) = None
  ∧ localStorage (step env now e st) !! timeLeftKey env = None
  ∧ localStorage (step env now e st) !! startTimeKey env = None.
Proof.
  intros Hm Hp Hd Hm'.
  assert (leftClean env st) as Hc.
  { split; [done|]. by rewrite Hm. }
  destruct (step_leftClean env now e st Hd Hc) as [_ H]. by apply H.
Qed.

(** C9, as the code has it.  After the submission success handler has run,
    none of the four keys of the attempt (answers, question index,
    remaining time, start time) is in the side-store, and the keys of every
    other attempt hold what they held before; after logout no key that
    starts with the attempt prefix is in the side-store, whichever attempt
    it belongs to.  No other event of the panel removes the answers entry
    or the question-index entry.  The remaining-time and start-time
    entries, however, are also removed by the cleanup of the timer effect
    whenever an event makes the panel leave after its timer was started. *)
Theorem side_store_cleared env st path ls :
  (∀ s, s ∈ attemptSuffixes →
        localStorage (onSuccess env st) !! examKey (route_id env) s = None)
  ∧ (∀ id' s, id' ≠ route_id env → s ∈ attemptSuffixes →
        localStorage (onSuccess env st) !! examKey id' s
        = localStorage st !! examKey id' s)
  ∧ (∀ k, startsWith k "exam_" = true → (logout path ls).1 !! k = None)
  ∧ (∀ id s, (logout path ls).1 !! examKey id s = None)
  ∧ (∀ now e k, e ≠ SubmitSucceeded →
        k = answersKey env ∨ k = questionIndexKey env →
        is_Some (localStorage st !! k) →
        is_Some (localStorage (step env now e st) !! k))
  ∧ (∀ now e, mounted st = true → paperLoaded st = true →
        duration (examPaper env) ≠ 0 →
        mounted (step env now e st) = false →
        localStorage (step env now e st) !! timeLeftKey env = None
        ∧ localStorage (step env now e st) !! startTimeKey env = None).
Proof.
  split; [|split; [|split; [|split; [|split]]]].
  - intros s Hs. by apply onSuccess_removed.
  - intros id' s Hid Hs. apply onSuccess_other.
    intros s' Hs' Heq. by apply examKey_inj in Heq as [? _].
  - intros k Hk. by apply logout_removes_prefixed.
  - intros id s. apply logout_removes_prefixed, examKey_startsWith.
  - intros now e k. apply step_keeps_answer_entries.
  - intros now e Hm Hp Hd Hm'.
    by destruct (step_unmount_clears_timer_entries env now e st Hm Hp Hd Hm')
      as (_ & ? & ?).
Qed.

Lemma side_store_cleared_witness :
  localStorage (onSuccess env1 (sampleState sampleStore)) !! "exam_e1_answers"
  = None
  ∧ localStorage (onSuccess env1 (sampleState sampleStore))
      !! "exam_e2_answers"
    = Some (VAnswers [mkAnswer 0 "A" "x0"])
  ∧ (logout "/exam-panel/e1" sampleStore).1 !! "exam_e2_answers" = None
  ∧ is_Some (localStorage (step env1 1 (Tick true) (sampleState sampleStore))
               !! answersKey env1)
  ∧ localStorage (step env1 3 (SubmitFailed unauthorized) submittedOnce)
      !! timeLeftKey env1 = None.
Proof.
  destruct (side_store_cleared env1 (sampleState sampleStore)
              "/exam-panel/e1" sampleStore) as (H1 & H2 & H3 & _ & H5 & _).
  destruct (side_store_cleared env1 submittedOnce "/exam-panel/e1" sampleStore)
    as (_ & _ & _ & _ & _ & H6).
  assert ("_answers" ∈ attemptSuffixes) as Hs by (by left).
  split; [exact (H1 "_answers" Hs)|]. split; [|split; [|split]].
  - change "exam_e2_answers" with (examKey "e2" "_answers").
    rewrite (H2 "e2" "_answers"); [vm_compute; reflexivity| |exact Hs].
    vm_compute. discriminate.
  - apply H3. vm_compute. reflexivity.
  - apply H5; [discriminate|by left|].
    eexists. vm_compute. reflexivity.
  - apply H6; [vm_compute; reflexivity..|vm_compute; discriminate
              |vm_compute; reflexivity].
Defined.

(** C9 as stated fails: a request is under way and is answered with a
    401.  Nothing was submitted successfully and nobody logged out, yet
    the redirect to the login page unmounts the panel and the remaining-time
    and start-time entries of the attempt are gone; the answers entry is
    still there. *)
Lemma timer_entries_removed_without_success_counterexample :
  localStorage submittedOnce !! timeLeftKey env1 = Some (VSeconds 60)
  ∧ localStorage submittedOnce !! startTimeKey env1 = Some (VDate 0)
  ∧ trace (step env1 3 (SubmitFailed unauthorized) submittedOnce)
    = trace submittedOnce
  ∧ localStorage (step env1 3 (SubmitFailed unauthorized) submittedOnce)
      !! timeLeftKey env1 = None
  ∧ localStorage (step env1 3 (SubmitFailed unauthorized) submittedOnce)
      !! startTimeKey env1 = None
  ∧ localStorage (step env1 3 (SubmitFailed unauthorized) submittedOnce)
      !! answersKey env1 = Some (VAnswers [mkAnswer 0 "A" "q0"]).
Proof.
  split; [vm_compute; reflexivity|].
  split; [vm_compute; reflexivity|].
  split; [vm_compute; reflexivity|].
  split; [vm_compute; reflexivity|].
  split; vm_compute; reflexivity.
Qed.

(** X8. Leaving the panel stops the timer.  In a session of a paper with a
    non-zero duration, once the component has left the panel (after a
    submission, a redirect to the login page or the delayed redirect to
    the dashboard) the interval is cleared, the remaining-time and
    start-time entries are gone from the side-store, and a late tick
    changes nothing. *)
Theorem leaving_cancels_timer env now ls evs :
  let st := run env evs (start env now ls) in
  duration (examPaper env) ≠ 0 →
  mounted (start env now ls) = true → mounted st = false →
  timer st = None
  ∧ localStorage st !! timeLeftKey env = None
  ∧ localStorage st !! startTimeKey env = None
  ∧ (∀ t reply, step env t (Tick reply) st = st).
Proof.
  intros st Hd Hm0 Hm.
  destruct (run_leftClean env evs _ Hd (start_leftClean env now ls Hm0))
    as [_ H].
  destruct (H Hm) as (Ht & H1 & H2). repeat split; try done.
  intros t reply. by apply tick_stopped.
Qed.

Lemma leaving_cancels_timer_witness :
  timer (run env3 submittedAndLeft (start env3 0 ∅)) = None
  ∧ localStorage (run env3 submittedAndLeft (start env3 0 ∅))
      !! timeLeftKey env3 = None.
Proof.
  assert (duration (examPaper env3) ≠ 0) as Hd by (vm_compute; discriminate).
  assert (mounted (start env3 0 ∅) = true) as Hm0
    by (vm_compute; reflexivity).
  assert (mounted (run env3 submittedAndLeft (start env3 0 ∅)) = false)
    as Hm by (vm_compute; reflexivity).
  destruct (leaving_cancels_timer env3 0 ∅ submittedAndLeft Hd Hm0 Hm)
    as (H1 & H2 & _).
  split; [exact H1|exact H2].
Defined.

(** X9. A component that has left the panel writes nothing.  Whatever
    event still arrives after the panel was left (a late response, a late
    timeout), every entry the side-store holds afterwards was there before
    with the same value: entries can only disappear. *)
Theorem left_panel_never_writes env now e st k v :
  mounted st = false →
  localStorage (step env now e st) !! k = Some v →
  localStorage st !! k = Some v.
Proof.
  intros Hm. destruct e as [r|w| | |r| |err|].
  2: { destruct (step_answerChange env now w st)
         as [->|(st' & Hm' & _)]; [done|congruence]. }
  all: revert Hm; step_cases; intros; simplify_eq/=; try done.
  all: repeat match goal with
              | H : delete _ _ !! _ = Some _ |- _ =>
                  apply lookup_delete_Some in H as [_ H]
              end; done.
Qed.

Lemma left_panel_never_writes_witness :
  localStorage
    (step env3 9 (SubmitFailed duplicate)
       (run env3 submittedAndLeft (start env3 0 ∅)))
    !! answersKey env3 = None.
Proof.
  assert (mounted (run env3 submittedAndLeft (start env3 0 ∅)) = false)
    as Hm by (vm_compute; reflexivity).
  destruct (localStorage
              (step env3 9 (SubmitFailed duplicate)
                 (run env3 submittedAndLeft (start env3 0 ∅)))
              !! answersKey env3) as [v|] eqn:H; [|reflexivity].
  apply (left_panel_never_writes env3 9 (SubmitFailed duplicate) _ _ v Hm)
    in H.
  vm_compute in H. discriminate H.
Defined.

(** ** A failed load *)

Lemma queryFailed_fields env err st :
  mounted st = true → paperLoaded st = false →
  localStorage (queryFailed env err st) = localStorage st
  ∧ timer (queryFailed env err st) = timer st
  ∧ inFlight (queryFailed env err st) = inFlight st
  ∧ paperLoaded (queryFailed env err st) = false
  ∧ location (queryFailed env err st)
    = (if statusIs err 401 then Page "/login" (Some (panelPath env))
       else Page "/exams" None)
  ∧ trace (queryFailed env err st)
    = (if statusIs err 401 then trace st
       else trace st
            ++ [ObsToast
                  (mkToast "Error"
                     (orElse (messageOf err) "Failed to load exam paper")
                     variant_destructive)]).
Proof.
  intros Hm Hp. unfold queryFailed. rewrite Hm, Hp. simpl.
  destruct (statusIs err 401); revert Hm Hp; step_cases; intros;
    simplify_eq/=; by repeat split.
Qed.

(** X10. A failed load loses nothing.  When the paper cannot be fetched,
    the panel is left for the login page (status 401, with the panel as
    return path) or for the exam list (any other failure, after a
    destructive toast with the server's message or a default one); no
    timer was started and no request sent, and the side-store is as the
    mount left it, so that the answers and the question index saved by an
    earlier visit are restored on the next one. *)
Theorem failed_load_keeps_saved_answers env now ls err now' :
  let st0 := mount env now ls in
  let st := queryFailed env err st0 in
  mounted st0 = true →
  mounted st = false ∧ timer st = None ∧ inFlight st = []
  ∧ location st
    = (if statusIs err 401 then Page "/login" (Some (panelPath env))
       else Page "/exams" None)
  ∧ (statusIs err 401 = false →
     trace st
     = [ObsToast
          (mkToast "Error"
             (orElse (messageOf err) "Failed to load exam paper")
             variant_destructive)])
  ∧ answers (mount env now' (localStorage st)) = answers st0
  ∧ currentQuestionIndex (mount env now' (localStorage st))
    = currentQuestionIndex st0.
Proof.
  intros st0 st Hm.
  destruct (mount_fields env now ls) as (Htr & Hin & Htm & _ & Hp & _).
  destruct (queryFailed_fields env err st0 Hm Hp)
    as (Hls & Ht & Hf & _ & Hloc & Htrace).
  fold st in Hls, Ht, Hf, Hloc, Htrace.
  destruct (mount_restores env now' st0 (mount_mirror env now ls)) as [Ha Hq].
  rewrite Hls, Ht, Hf. unfold mounted. rewrite Hloc.
  repeat split; try done.
  - by destruct (statusIs err 401).
  - intros H. rewrite Htrace, H. subst st0. by rewrite Htr.
Qed.

Lemma failed_load_keeps_saved_answers_witness :
  location (queryFailed env1 (Some (mkErrorResponse 404 (Some "Not found")))
              (mount env1 5 sampleStore))
  = Page "/exams" None
  ∧ answers
      (mount env1 9
         (localStorage
            (queryFailed env1 (Some (mkErrorResponse 404 (Some "Not found")))
               (mount env1 5 sampleStore))))
    = [mkAnswer 0 "B" "q0"].
Proof.
  assert (mounted (mount env1 5 sampleStore) = true) as Hm
    by (vm_compute; reflexivity).
  destruct (failed_load_keeps_saved_answers env1 5 sampleStore
              (Some (mkErrorResponse 404 (Some "Not found"))) 9 Hm)
    as (_ & _ & _ & H1 & _ & H2 & _).
  split; [rewrite H1|rewrite H2]; vm_compute; reflexivity.
Defined.

(** ** The clock *)

Lemma padStart_twoDigits n :
  0 ≤ n < 100 → padStart 2 "0"%char (toString n) = twoDigits n.
Proof.
  intros Hn.
  assert (forallb
            (λ k, String.eqb (padStart 2 "0"%char (toString (Z.of_nat k)))
                    (twoDigits (Z.of_nat k))) (seq 0 100) = true) as Hall
    by (vm_compute; reflexivity).
  rewrite forallb_forall in Hall.
  specialize (Hall (Z.to_nat n)). rewrite Z2Nat.id in Hall by lia.
  apply String.eqb_eq, Hall, in_seq. lia.
Qed.

Lemma digit_inj a b : 0 ≤ a < 10 → 0 ≤ b < 10 → digit a = digit b → a = b.
Proof.
  intros Ha Hb H. unfold digit in H.
  apply (f_equal Ascii.N_of_ascii) in H.
  rewrite !Ascii.N_ascii_embedding in H by lia. lia.
Qed.

Lemma twoDigits_inj a b :
  0 ≤ a < 100 → 0 ≤ b < 100 → twoDigits a = twoDigits b → a = b.
Proof.
  intros Ha Hb [= H1 H2].
  apply digit_inj in H1; [|Z.div_mod_to_equations; lia..].
  apply digit_inj in H2; [|Z.div_mod_to_equations; lia..].
  Z.div_mod_to_equations; lia.
Qed.

Lemma formatTime_twoDigits s :
  0 ≤ s < 360000 →
  formatTime s
  = twoDigits (s / 3600) +:+ ":" +:+ twoDigits (s mod 3600 / 60) +:+ ":"
    +:+ twoDigits (s mod 60).
Proof.
  intros Hs. unfold formatTime.
  rewrite !Z.rem_mod_nonneg by lia.
  rewrite !padStart_twoDigits by (Z.div_mod_to_equations; lia). done.
Qed.

(** X11. The clock reads HH:MM:SS.  For a remaining time below 100 hours
    the clock text is the two-digit hours, minutes and seconds of that
    time, separated by colons: eight characters, minutes and seconds below
    60, and together they make up the remaining time again. *)
Theorem formatTime_clock s :
  0 ≤ s < 360000 →
  ∃ h m c,
    formatTime s = twoDigits h +:+ ":" +:+ twoDigits m +:+ ":" +:+ twoDigits c
    ∧ 0 ≤ h < 100 ∧ 0 ≤ m < 60 ∧ 0 ≤ c < 60
    ∧ h * 3600 + m * 60 + c = s
    ∧ String.length (formatTime s) = 8%nat.
Proof.
  intros Hs. exists (s / 3600), (s mod 3600 / 60), (s mod 60).
  rewrite formatTime_twoDigits by done.
  repeat split; try (Z.div_mod_to_equations; lia).
Qed.

Lemma formatTime_clock_witness :
  formatTime 3725 = "01:02:05" ∧ String.length (formatTime 3725) = 8%nat.
Proof.
  assert (0 ≤ 3725 < 360000) as Hs by lia.
  destruct (formatTime_clock 3725 Hs) as (h & m & c & _ & _ & _ & _ & _ & Hl).
  split; [vm_compute; reflexivity|exact Hl].
Defined.

(** X12. Different remaining times read differently.  Below 100 hours the
    clock text determines the remaining time. *)
Theorem formatTime_injective s s' :
  0 ≤ s < 360000 → 0 ≤ s' < 360000 →
  formatTime s = formatTime s' → s = s'.
Proof.
  intros Hs Hs'. rewrite !formatTime_twoDigits by done.
  intros [= H1 H2 H3 H4 H5 H6].
  assert (s / 3600 = s' / 3600) as Hh.
  { apply twoDigits_inj; [Z.div_mod_to_equations; lia..|].
    unfold twoDigits. by rewrite H1, H2. }
  assert (s mod 3600 / 60 = s' mod 3600 / 60) as Hm.
  { apply twoDigits_inj; [Z.div_mod_to_equations; lia..|].
    unfold twoDigits. by rewrite H3, H4. }
  assert (s mod 60 = s' mod 60) as Hc.
  { apply twoDigits_inj; [Z.div_mod_to_equations; lia..|].
    unfold twoDigits. by rewrite H5, H6. }
  Z.div_mod_to_equations; lia.
Qed.

Lemma formatTime_injective_witness : formatTime 59 ≠ formatTime 60.
Proof.
  intros H. apply formatTime_injective in H; lia.
Defined.

(** ** The rest of [logout] *)

Lemma startsWith_app p s : startsWith (p +:+ s) p = true.
Proof.
  induction p as [|c p IH]; [done|].
  change (String c p +:+ s) with (String c (p +:+ s)). cbn [startsWith].
  rewrite bool_decide_eq_true_2 by done. exact IH.
Qed.

Lemma includes_app a p b : includes (a +:+ p +:+ b) p = true.
Proof.
  induction a as [|c a IH].
  - change ("" +:+ p +:+ b) with (p +:+ b).
    assert (includes (p +:+ b) p = startsWith (p +:+ b) p
              || match p +:+ b with
                 | EmptyString => false
                 | String _ s' => includes s' p
                 end) as -> by (by destruct (p +:+ b)).
    by rewrite startsWith_app.
  - change (String c a +:+ p +:+ b) with (String c (a +:+ p +:+ b)).
    cbn [includes]. rewrite IH. apply orb_true_r.
Qed.

(** X13. What logout leaves alone, and where it leads.  Logout removes
    the token and the user entry and keeps every other entry whose key
    does not start with the attempt prefix exactly as it was.  From a path
    that contains "/admin" it leads to the admin login page, from a path
    that contains "/faculty" but not "/admin" to the faculty login page,
    and from any other path to the general login page. *)
Theorem logout_keeps_other_entries path ls :
  (logout path ls).1 !! "token" = None
  ∧ (logout path ls).1 !! "user" = None
  ∧ (∀ k, k ≠ "token" → k ≠ "user" → startsWith k "exam_" = false →
          (logout path ls).1 !! k = ls !! k)
  ∧ (∀ a b, (logout (a +:+ "/admin" +:+ b) ls).2 = "/admin/login")
  ∧ (includes path "/admin" = false →
     (logout path ls).2
     = if includes path "/faculty" then "/faculty/login" else "/login").
Proof.
  unfold logout; cbn [fst snd]. repeat split.
  - rewrite logout_loop_lookup. case_decide; [done|].
    apply lookup_delete_eq.
  - rewrite logout_loop_lookup. case_decide; [done|].
    rewrite lookup_delete_ne by done. apply lookup_delete_eq.
  - intros k H1 H2 H3. rewrite logout_loop_lookup.
    rewrite decide_False by (intros [_ H]; congruence).
    by rewrite !lookup_delete_ne.
  - intros a b. by rewrite includes_app.
  - by intros ->.
Qed.

Lemma logout_keeps_other_entries_witness :
  (logout "/faculty/papers" (<["theme" := VText "dark"]> sampleStore)).1
    !! "theme" = Some (VText "dark")
  ∧ (logout "/faculty/papers" sampleStore).2 = "/faculty/login".
Proof.
  destruct (logout_keeps_other_entries "/faculty/papers"
              (<["theme" := VText "dark"]> sampleStore))
    as (_ & _ & H & _ & _).
  destruct (logout_keeps_other_entries "/faculty/papers" sampleStore)
    as (_ & _ & _ & _ & H').
  split.
  - rewrite H; [vm_compute; reflexivity|discriminate..|vm_compute; reflexivity].
  - rewrite H'; vm_compute; reflexivity.
Defined.

(** ** The auth context *)

Lemma initAuth_cases JSON_parse ls header :
  (∃ t raw u,
     restorable JSON_parse ls t raw u
     ∧ AuthContext.initAuth JSON_parse (AuthContext.initial ls header)
       = AuthContext.mkAuthState (Some u) (Some t) false ls
           (Some (AuthContext.bearer t)))
  ∨ ((∀ t raw u, ¬ restorable JSON_parse ls t raw u)
     ∧ AuthContext.initAuth JSON_parse (AuthContext.initial ls header)
       = AuthContext.cleared (AuthContext.initial ls header)).
Proof.
  unfold AuthContext.initAuth, AuthContext.initial, restorable.
  cbn [AuthContext.storage].
  destruct (ls !! "token") as [[|c t]|] eqn:Ht; cbn;
    [right; split; [intros ? ? ? (? & ? & _); congruence|done]|
    |right; split; [intros ? ? ? (? & ? & _); congruence|done]].
  destruct (ls !! "user") as [[|c' raw]|] eqn:Hu; cbn;
    [right; split; [intros ? ? ? (? & ? & ? & ? & _); congruence|done]|
    |right; split; [intros ? ? ? (? & ? & ? & ? & _); congruence|done]].
  destruct (JSON_parse (String c' raw)) as [u|] eqn:Hp; cbn;
    [|right; split; [intros ? ? ? (? & ? & ? & ? & ? & _); congruence|done]].
  destruct (AuthContext._id u) as [|ci i] eqn:Hi; cbn;
    [right; split;
       [intros ? ? ? (? & ? & ? & ? & ? & ? & _); congruence|done]|].
  destruct (AuthContext.role u) as [|cr r] eqn:Hr; cbn;
    [right; split;
       [intros ? ? ? (? & ? & ? & ? & ? & ? & ?); congruence|done]|].
  left. exists (String c t), (String c' raw), u.
  rewrite Hi, Hr. by repeat split.
Qed.

Lemma mountProvider_cases JSON_parse ls header :
  let st := AuthContext.mountProvider JSON_parse ls header in
  AuthContext.isLoading st = false
  ∧ (AuthContext.signedIn st ∨ AuthContext.signedOut st)
  ∧ (∀ t raw u, restorable JSON_parse ls t raw u →
       AuthContext.user st = Some u ∧ AuthContext.token st = Some t
       ∧ AuthContext.storage st !! "token" = Some t
       ∧ AuthContext.storage st !! "user" = Some raw
       ∧ AuthContext.authorization st = Some (AuthContext.bearer t))
  ∧ ((∀ t raw u, ¬ restorable JSON_parse ls t raw u) →
     AuthContext.signedOut st)
  ∧ (∀ k, k ≠ "token" → k ≠ "user" →
          AuthContext.storage st !! k = ls !! k).
Proof.
  unfold AuthContext.mountProvider.
  destruct (initAuth_cases JSON_parse ls header)
    as [(t & raw & u & Hr & ->)|[Hno ->]].
  - destruct Hr as (Ht & Htne & Hu & Hune & Hp & Hi & Hro).
    destruct t as [|c t]; [done|].
    unfold AuthContext.rerender, AuthContext.tokenEffect,
      AuthContext.signedIn, AuthContext.signedOut; cbn.
    rewrite decide_False by done. cbn.
    assert (<["token" := String c t]> (delete "token" ls) !! "user"
            = Some raw) as Hu'
      by (by rewrite lookup_insert_ne, lookup_delete_ne).
    split; [done|]. split; [|split; [|split]].
    + left. exists u, (String c t), raw.
      repeat split; try done. apply lookup_insert_eq.
    + intros t' raw' u' (Ht' & _ & Hu2 & _ & Hp' & _).
      assert (t' = String c t) as -> by congruence.
      assert (raw' = raw) as -> by congruence.
      assert (u' = u) as -> by congruence.
      repeat split; try done. apply lookup_insert_eq.
    + intros H. destruct (H (String c t) raw u). by repeat split.
    + intros k H1 H2. by rewrite lookup_insert_ne, lookup_delete_ne.
  - unfold AuthContext.rerender, AuthContext.tokenEffect,
      AuthContext.cleared, AuthContext.initial, AuthContext.signedIn,
      AuthContext.signedOut; cbn.
    rewrite decide_True by done. cbn.
    assert (delete "token" (delete "user" (delete "token" ls)) !! "user"
            = None) as Hu'
      by (rewrite lookup_delete_ne by done; apply lookup_delete_eq).
    split; [done|]. split; [|split; [|split]].
    + right. repeat split; try done. apply lookup_delete_eq.
    + intros t raw u Hr. by destruct (Hno t raw u).
    + intros _. repeat split; try done. apply lookup_delete_eq.
    + intros k H1 H2. by rewrite !lookup_delete_ne.
Qed.

(** X14. The provider never holds half a session.  After the provider
    has mounted, loading is over and either the session is there in full
    (user, token, both side-store entries, and the authorization header
    for that token) or it is gone in full (no user, no token, neither
    entry, no header).  It is there exactly when the stored token and the
    stored user are non-empty and the stored user parses to a value with
    an id and a role, and then it is the stored one.  No other entry of
    the side-store is touched. *)
Theorem provider_mount_all_or_nothing JSON_parse ls header :
  let st := AuthContext.mountProvider JSON_parse ls header in
  AuthContext.isLoading st = false
  ∧ (AuthContext.signedIn st ∨ AuthContext.signedOut st)
  ∧ (∀ t raw u, restorable JSON_parse ls t raw u →
       AuthContext.user st = Some u ∧ AuthContext.token st = Some t
       ∧ AuthContext.storage st !! "token" = Some t
       ∧ AuthContext.storage st !! "user" = Some raw
       ∧ AuthContext.authorization st = Some (AuthContext.bearer t))
  ∧ ((∀ t raw u, ¬ restorable JSON_parse ls t raw u) →
     AuthContext.signedOut st)
  ∧ (∀ k, k ≠ "token" → k ≠ "user" →
          AuthContext.storage st !! k = ls !! k).
Proof. apply mountProvider_cases. Qed.

Lemma provider_mount_all_or_nothing_witness :
  AuthContext.user (AuthContext.mountProvider sampleParse sampleAuthStore None)
  = Some sampleUser
  ∧ AuthContext.signedOut
      (AuthContext.mountProvider sampleParse (delete "user" sampleAuthStore)
         (Some "Bearer old"))
  ∧ AuthContext.storage
      (AuthContext.mountProvider sampleParse (delete "user" sampleAuthStore)
         (Some "Bearer old")) !! "theme" = Some "dark".
Proof.
  destruct (provider_mount_all_or_nothing sampleParse sampleAuthStore None)
    as (_ & _ & H1 & _ & _).
  destruct (provider_mount_all_or_nothing sampleParse
              (delete "user" sampleAuthStore) (Some "Bearer old"))
    as (_ & _ & _ & H2 & H3).
  split; [|split].
  - refine (proj1 (H1 "tok" "{ada}" sampleUser _)).
    repeat split; try (vm_compute; reflexivity); discriminate.
  - apply H2. intros t raw u (_ & _ & Hu & _). vm_compute in Hu.
    discriminate Hu.
  - rewrite H3 by discriminate. vm_compute. reflexivity.
Defined.

Lemma login_failed_signedOut previous (st : AuthContext.AuthState) :
  AuthContext.signedOut
    (AuthContext.rerender previous (AuthContext.loginFailed st))
  ∧ (∀ k, k ≠ "token" → k ≠ "user" →
          AuthContext.storage
            (AuthContext.rerender previous (AuthContext.loginFailed st))
            !! k
          = AuthContext.storage st !! k).
Proof.
  unfold AuthContext.rerender, AuthContext.loginFailed,
    AuthContext.signedOut, AuthContext.tokenEffect.
  cbn [AuthContext.token].
  assert (delete "user" (delete "token" (AuthContext.storage st)) !! "user"
          = None) as H1 by apply lookup_delete_eq.
  assert (delete "user" (delete "token" (AuthContext.storage st)) !! "token"
          = None) as H2
    by (rewrite lookup_delete_ne by done; apply lookup_delete_eq).
  case_decide; cbn; repeat split; try done.
  - intros k Hk1 Hk2. by rewrite !lookup_delete_ne.
  - apply lookup_delete_eq.
  - by rewrite lookup_delete_ne.
  - intros k Hk1 Hk2. by rewrite !lookup_delete_ne.
Qed.

Lemma login_cases JSON_stringify response st :
  let st' := (AuthContext.login JSON_stringify response st).1 in
  let ok := (AuthContext.login JSON_stringify response st).2 in
  (ok = true ↔
   ∃ u t, response = Some (u, t) ∧ AuthContext._id u ≠ EmptyString
          ∧ AuthContext.role u ≠ EmptyString ∧ t ≠ EmptyString)
  ∧ (∀ u t, ok = true → response = Some (u, t) →
       AuthContext.signedIn st'
       ∧ AuthContext.user st' = Some u ∧ AuthContext.token st' = Some t
       ∧ AuthContext.storage st' !! "token" = Some t
       ∧ AuthContext.storage st' !! "user" = Some (JSON_stringify u)
       ∧ AuthContext.authorization st' = Some (AuthContext.bearer t))
  ∧ (ok = false → AuthContext.signedOut st')
  ∧ (∀ k, k ≠ "token" → k ≠ "user" →
          AuthContext.storage st' !! k = AuthContext.storage st !! k).
Proof.
  pose proof (login_failed_signedOut (AuthContext.token st) st) as [Hf1 Hf2].
  unfold AuthContext.login.
  destruct response as [[u t]|]; cbn [fst snd].
  2: { split; [|split; [|split]]; try done.
       split; [done|]. intros (? & ? & ? & _). done. }
  destruct (AuthContext._id u) as [|ci i] eqn:Hi; cbn.
  { split; [|split; [|split]]; try done.
    split; [done|]. intros (? & ? & [= <- <-] & ? & _). congruence. }
  destruct (AuthContext.role u) as [|cr r] eqn:Hr; cbn.
  { split; [|split; [|split]]; try done.
    split; [done|]. intros (? & ? & [= <- <-] & ? & ? & _). congruence. }
  destruct t as [|ct t]; cbn.
  { split; [|split; [|split]]; try done.
    split; [done|]. intros (? & ? & [= <- <-] & ? & ? & ?). congruence. }
  assert (<["token" := String ct t]>
            (<["user" := JSON_stringify u]> (AuthContext.storage st))
            !! "user" = Some (JSON_stringify u)) as Hu
    by (rewrite lookup_insert_ne by done; apply lookup_insert_eq).
  unfold AuthContext.rerender, AuthContext.tokenEffect,
    AuthContext.signedIn; cbn.
  case_decide; cbn; rewrite ?insert_insert_eq.
  - split; [|split; [|split]]; try done.
    + split; [|done]. intros _. exists u, (String ct t).
      rewrite Hi, Hr. by repeat split.
    + intros u' t' _ [= <- <-].
      split; [|repeat split; try done; apply lookup_insert_eq].
      exists u, (String ct t), (JSON_stringify u).
      repeat split; try done. apply lookup_insert_eq.
    + intros k H1 H2. by rewrite !lookup_insert_ne.
  - split; [|split; [|split]]; try done.
    + split; [|done]. intros _. exists u, (String ct t).
      rewrite Hi, Hr. by repeat split.
    + intros u' t' _ [= <- <-].
      split; [|repeat split; try done; apply lookup_insert_eq].
      exists u, (String ct t), (JSON_stringify u).
      repeat split; try done. apply lookup_insert_eq.
    + intros k H1 H2. by rewrite !lookup_insert_ne.
Qed.

(** X15. Logging in is all or nothing.  [login] resolves exactly when
    [loginUser] resolved with a user that has an id and a role and with a
    non-empty token; then the provider holds that session in full, with
    the user written to the side-store.  In every other case the provider
    holds no session afterwards, also when it held one before: a failed
    login signs the user out.  Entries other than the token and the user
    are never touched. *)
Theorem login_all_or_nothing JSON_stringify response st :
  let st' := (AuthContext.login JSON_stringify response st).1 in
  let ok := (AuthContext.login JSON_stringify response st).2 in
  (ok = true ↔
   ∃ u t, response = Some (u, t) ∧ AuthContext._id u ≠ EmptyString
          ∧ AuthContext.role u ≠ EmptyString ∧ t ≠ EmptyString)
  ∧ (∀ u t, ok = true → response = Some (u, t) →
       AuthContext.signedIn st'
       ∧ AuthContext.user st' = Some u ∧ AuthContext.token st' = Some t
       ∧ AuthContext.storage st' !! "token" = Some t
       ∧ AuthContext.storage st' !! "user" = Some (JSON_stringify u)
       ∧ AuthContext.authorization st' = Some (AuthContext.bearer t))
  ∧ (ok = false → AuthContext.signedOut st')
  ∧ (∀ k, k ≠ "token" → k ≠ "user" →
          AuthContext.storage st' !! k = AuthContext.storage st !! k).
Proof. apply login_cases. Qed.

Lemma login_all_or_nothing_witness :
  AuthContext.signedOut
    (AuthContext.login sampleStringify None
       (AuthContext.mountProvider sampleParse sampleAuthStore None)).1
  ∧ AuthContext.user
      (AuthContext.login sampleStringify (Some (sampleUser, "t2"))
         (AuthContext.initial ∅ None)).1
    = Some sampleUser.
Proof.
  destruct (login_all_or_nothing sampleStringify None
              (AuthContext.mountProvider sampleParse sampleAuthStore None))
    as (_ & _ & H1 & _).
  destruct (login_all_or_nothing sampleStringify (Some (sampleUser, "t2"))
              (AuthContext.initial ∅ None)) as (_ & H2 & _).
  split.
  - apply H1. vm_compute. reflexivity.
  - refine (proj1 (proj2 (H2 sampleUser "t2" _ eq_refl))).
    vm_compute. reflexivity.
Defined.

(** X16. A login survives a reload.  When [login] has resolved and the
    browser's JSON reads back the user it wrote (as a non-empty text),
    mounting the provider again on the side-store the login left restores
    the same user and the same token, in full. *)
Theorem login_then_reload_restores JSON_parse JSON_stringify u t st header :
  (AuthContext.login JSON_stringify (Some (u, t)) st).2 = true →
  JSON_parse (JSON_stringify u) = Some u →
  JSON_stringify u ≠ EmptyString →
  let st' :=
    AuthContext.mountProvider JSON_parse
      (AuthContext.storage
         (AuthContext.login JSON_stringify (Some (u, t)) st).1) header in
  AuthContext.user st' = Some u ∧ AuthContext.token st' = Some t
  ∧ AuthContext.authorization st' = Some (AuthContext.bearer t).
Proof.
  intros Hok Hrt Hne st'.
  destruct (login_cases JSON_stringify (Some (u, t)) st)
    as (Hiff & Hin & _).
  destruct (proj1 Hiff Hok) as (u' & t' & [= <- <-] & Hi & Hr & Ht).
  destruct (Hin u t Hok eq_refl) as (_ & _ & _ & Hst & Hsu & _).
  destruct (mountProvider_cases JSON_parse
              (AuthContext.storage
                 (AuthContext.login JSON_stringify (Some (u, t)) st).1)
              header) as (_ & _ & Hres & _).
  destruct (Hres t (JSON_stringify u) u) as (H1 & H2 & _ & _ & H3).
  { by repeat split. }
  by repeat split.
Qed.

Lemma login_then_reload_restores_witness :
  AuthContext.user
    (AuthContext.mountProvider sampleParse
       (AuthContext.storage
          (AuthContext.login sampleStringify (Some (sampleUser, "t2"))
             (AuthContext.initial ∅ None)).1) None)
  = Some sampleUser.
Proof.
  refine (proj1 (login_then_reload_restores sampleParse sampleStringify
                   sampleUser "t2" (AuthContext.initial ∅ None) None
                   _ _ _)).
  - vm_compute. reflexivity.
  - vm_compute. reflexivity.
  - discriminate.
Defined.

(** ** [login] of the API module *)

Lemma truthy_Some s : s ≠ EmptyString → AuthContext.truthy (Some s) = true.
Proof. by destruct s. Qed.

Lemma dropChars_app p s : Api.dropChars (String.length p) (p +:+ s) = s.
Proof. induction p as [|c p IH]; [by destruct s|exact IH]. Qed.

Lemma removeFirst_prefix p s : Api.removeFirst (p +:+ s) p = s.
Proof.
  destruct (p +:+ s) as [|c r] eqn:E; cbn [Api.removeFirst]; rewrite <- E;
    by rewrite startsWith_app, dropChars_app.
Qed.

(** X17. The API login hands out complete credentials only.  Whenever it
    resolves, the token is non-empty and the Authorization default of the
    axios instance is the bearer header of that token; when it throws, the
    default is left as it was.  A response that nests a user and carries
    a non-empty token resolves to exactly these; a response that is the
    user itself (with id and email, no nested user, no token of its own)
    resolves to that user and to the token of the response's bearer
    header. *)
Theorem api_login_complete_credentials response defaults :
  let res := (Api.login response defaults).1 in
  let hdr := (Api.login response defaults).2 in
  (∀ u t, res = Some (u, t) →
          t ≠ EmptyString ∧ hdr = Some (AuthContext.bearer t))
  ∧ (res = None → hdr = defaults)
  ∧ (∀ d u, Api.data response = Some d → Api.data_user d = Some u →
       Api.data_token d ≠ EmptyString →
       res = Some (u, Api.data_token d))
  ∧ (∀ d t, Api.data response = Some d → Api.data_user d = None →
       AuthContext._id (Api.data_self d) ≠ EmptyString →
       AuthContext.email (Api.data_self d) ≠ EmptyString →
       Api.data_token d = EmptyString →
       Api.headers_authorization response = Some (AuthContext.bearer t) →
       t ≠ EmptyString →
       res = Some (Api.data_self d, t)).
Proof.
  unfold Api.login. split; [|split; [|split]].
  - intros u t. destruct (Api.data response) as [d|]; cbn; [|done].
    repeat case_match; cbn; intros [= <- <-]; by split.
  - destruct (Api.data response) as [d|]; cbn; [|done].
    repeat case_match; cbn; done.
  - intros d u -> Hu Ht. cbn. rewrite Hu.
    rewrite bool_decide_eq_true_2 by eauto. rewrite andb_false_r.
    by destruct (Api.data_token d).
  - intros d t -> Hu Hi He Htok Hh Ht. cbv beta iota zeta.
    rewrite (truthy_Some _ Hi), (truthy_Some _ He), Hu, Htok, Hh. cbn.
    unfold AuthContext.bearer. rewrite removeFirst_prefix.
    by destruct t.
Qed.

Lemma api_login_complete_credentials_witness :
  (Api.login nestedResponse None).1 = Some (sampleUser, "t2")
  ∧ (Api.login flatResponse None).1 = Some (sampleUser, "t3").
Proof.
  destruct (api_login_complete_credentials nestedResponse None)
    as (_ & _ & H1 & _).
  destruct (api_login_complete_credentials flatResponse None)
    as (_ & _ & _ & H2).
  split.
  - exact (H1 _ sampleUser eq_refl eq_refl ltac:(discriminate)).
  - exact (H2 _ "t3" eq_refl eq_refl ltac:(discriminate)
             ltac:(discriminate) eq_refl eq_refl ltac:(discriminate)).
Defined.

(** ** The exam list *)

Lemma hasSubmitted_true submissions userId examId :
  ExamsPage.hasSubmitted submissions userId examId = true ↔
  ∃ l sub, submissions = Some l ∧ In sub l
           ∧ ExamsPage.sub_examPaper sub = examId
           ∧ Some (ExamsPage.sub_student sub) = userId
           ∧ ExamsPage.sub_isSubmitted sub = true.
Proof.
  unfold ExamsPage.hasSubmitted. destruct submissions as [l|].
  - rewrite existsb_exists. split.
    + intros (sub & Hin & H). apply andb_true_iff in H as [H H3].
      apply andb_true_iff in H as [H1 H2].
      apply bool_decide_eq_true in H1, H2. by exists l, sub.
    + intros (l' & sub & [= <-] & Hin & H1 & H2 & H3). exists sub.
      split; [done|]. by rewrite !bool_decide_eq_true_2, H3 by done.
  - split; [done|]. intros (? & ? & ? & _). done.
Qed.

(** X18. Every exam on offer can be started.  An exam the list offers is
    approved, and the start button of it opens its exam panel: the second
    check in the click handler never turns down an exam the list shows.
    An exam for which the student has a submitted submission is neither
    offered nor can it be started; the click shows the destructive toast
    instead.  The offer keeps the order of the papers. *)
Theorem offered_exams_can_be_started examPapers submissions userId :
  let offered := ExamsPage.availableExams examPapers submissions userId in
  (∀ exam, In exam offered →
     ExamsPage.status exam = "approved"
     ∧ ExamsPage.handleStartExam submissions userId (ExamsPage.exam_id exam)
       = ExamsPage.Opens ("/exam-panel/" +:+ ExamsPage.exam_id exam))
  ∧ (∀ exam l sub, submissions = Some l → In sub l →
       ExamsPage.sub_examPaper sub = ExamsPage.exam_id exam →
       Some (ExamsPage.sub_student sub) = userId →
       ExamsPage.sub_isSubmitted sub = true →
       ¬ In exam offered
       ∧ ∃ t, ExamsPage.handleStartExam submissions userId
                (ExamsPage.exam_id exam) = ExamsPage.CannotStart t
              ∧ toast_variant t = variant_destructive)
  ∧ (∀ l, examPapers = Some l → sublist offered l).
Proof.
  unfold ExamsPage.availableExams, ExamsPage.handleStartExam.
  split; [|split].
  - intros exam Hin. destruct examPapers as [l|]; [|done].
    apply filter_In in Hin as [_ H]. apply andb_true_iff in H as [H1 H2].
    apply bool_decide_eq_true in H1. apply negb_true_iff in H2.
    by rewrite H2.
  - intros exam l sub Hs Hin H1 H2 H3.
    assert (ExamsPage.hasSubmitted submissions userId
              (ExamsPage.exam_id exam) = true) as Hsub
      by (apply hasSubmitted_true; by exists l, sub).
    rewrite Hsub. split; [|eexists; split; reflexivity].
    destruct examPapers as [l'|]; [|by intros []].
    intros [_ H]%filter_In. rewrite Hsub in H.
    by rewrite andb_false_r in H.
  - intros l ->. induction l as [|exam l IH]; simpl; [constructor|].
    case_match; by constructor.
Qed.

Lemma offered_exams_can_be_started_witness :
  ExamsPage.availableExams (Some sampleExams) (Some sampleRows) (Some "u1")
  = [ExamsPage.mkExam "e2" "approved"]
  ∧ ExamsPage.handleStartExam (Some sampleRows) (Some "u1") "e2"
    = ExamsPage.Opens "/exam-panel/e2".
Proof.
  destruct (offered_exams_can_be_started (Some sampleExams) (Some sampleRows)
              (Some "u1")) as (H1 & _ & _).
  split; [vm_compute; reflexivity|].
  refine (proj2 (H1 (ExamsPage.mkExam "e2" "approved") _)).
  vm_compute. by left.
Defined.

(** ** After the submission *)

(** X19. After a successful submission the next visit starts blank.  When
    a request is acknowledged, the success toast is shown, the user is
    taken to the dashboard, and a later mount of the panel for the same
    exam finds no saved answers and starts at the first question. *)
Theorem success_then_revisit_starts_blank env now st sub rest now' :
  inFlight st = sub :: rest →
  let st' := step env now SubmitSucceeded st in
  location st' = Page "/dashboard" None
  ∧ trace st'
    = trace st
      ++ [ObsToast
            (mkToast "Success" "Exam submitted successfully!"
               variant_default)]
  ∧ answers (mount env now' (localStorage st')) = []
  ∧ currentQuestionIndex (mount env now' (localStorage st')) = 0%nat.
Proof.
  intros Hin st'. subst st'. unfold step. rewrite Hin.
  assert ("_answers" ∈ attemptSuffixes) as Ha by (by left).
  assert ("_questionIndex" ∈ attemptSuffixes) as Hq by (right; by left).
  pose proof (onSuccess_removed env (set_inFlight rest st) _ Ha) as H1.
  pose proof (onSuccess_removed env (set_inFlight rest st) _ Hq) as H2.
  change (examKey (route_id env) "_answers") with (answersKey env) in H1.
  change (examKey (route_id env) "_questionIndex")
    with (questionIndexKey env) in H2.
  split; [by step_cases|]. split; [by step_cases|].
  unfold mount. rewrite H1, H2. done.
Qed.

Lemma success_then_revisit_starts_blank_witness :
  answers
    (mount env1 9 (localStorage (step env1 3 SubmitSucceeded submittedOnce)))
  = [].
Proof.
  assert (∃ sub, inFlight submittedOnce = sub :: []) as [sub Hin]
    by (eexists; vm_compute; reflexivity).
  exact (proj1 (proj2 (proj2 (success_then_revisit_starts_blank env1 3
                                submittedOnce sub [] 9 Hin)))).
Defined.

Lemma duplicate_failure_fields env now err st sub rest :
  mounted st = true → inFlight st = sub :: rest →
  isDuplicateSubmission err = true →
  location (step env now (SubmitFailed err) st) = ExamPanelPage
  ∧ timeouts (step env now (SubmitFailed err) st)
    = timeouts st ++ [(2000, "/dashboard")]
  ∧ currentQuestionIndex (step env now (SubmitFailed err) st)
    = currentQuestionIndex st.
Proof.
  intros Hm Hin Hdup.
  pose proof (duplicate_not_unauthorized _ Hdup) as H401.
  unfold isDuplicateSubmission in Hdup.
  unfold step. rewrite Hin. unfold onError. rewrite H401, Hdup.
  destruct st as [tl cq an sb stt tm pl loc sto inf tos tr]; simpl in *.
  unfold mounted in Hm; simpl in Hm. by destruct loc.
Qed.

(** X20. A duplicate submission leaves the saved answers behind.  When a
    request of a mounted session fails as a duplicate submission and the
    delayed redirect then fires, the user is on the dashboard, yet the
    answers and the question index are still in the side-store: a later
    mount of the panel for the same exam restores them. *)
Theorem duplicate_keeps_saved_answers env now0 ls evs sub rest err t t' now' :
  let st := run env evs (start env now0 ls) in
  let st' := step env t' TimeoutFired (step env t (SubmitFailed err) st) in
  mounted st = true → inFlight st = sub :: rest → timeouts st = [] →
  isDuplicateSubmission err = true →
  location st' = Page "/dashboard" None
  ∧ answers (mount env now' (localStorage st')) = answers st
  ∧ currentQuestionIndex (mount env now' (localStorage st'))
    = currentQuestionIndex st.
Proof.
  intros st st' Hm Hin Hto Hdup.
  pose proof (run_mirror env evs _ (start_mirror env now0 ls) Hm) as Hmir.
  fold st in Hmir.
  destruct (duplicate_failure_fields env t err st sub rest Hm Hin Hdup)
    as (Hloc & Hts & Hq).
  assert (st' = navigate env "/dashboard" None
                  (set_timeouts [] (step env t (SubmitFailed err) st)))
    as ->.
  { subst st'. unfold step at 1. by rewrite Hts, Hto. }
  split.
  { unfold navigate, timerCleanup. by repeat case_match. }
  assert (storeMirrors env (step env t (SubmitFailed err) st)) as Hmir1.
  { apply step_mirror; [done|]. unfold mounted. by rewrite Hloc. }
  assert (answers (step env t (SubmitFailed err) st) = answers st) as Ha
    by (by apply step_answers).
  destruct Hmir1 as [M1 M2]. rewrite Ha in M1. rewrite Hq in M2.
  destruct (attempt_keys_distinct env) as (_ & ? & ? & ? & ? & _).
  unfold mount. rewrite !navigate_lookup_other by done.
  unfold set_timeouts. cbn [localStorage]. rewrite M1, M2.
  split; reflexivity.
Qed.

Lemma duplicate_keeps_saved_answers_witness :
  location
    (step env1 9 TimeoutFired (step env1 3 (SubmitFailed duplicate)
                                 submittedOnce))
  = Page "/dashboard" None
  ∧ answers
      (mount env1 20
         (localStorage
            (step env1 9 TimeoutFired
               (step env1 3 (SubmitFailed duplicate) submittedOnce))))
    = [mkAnswer 0 "A" "q0"].
Proof.
  unfold submittedOnce.
  assert (mounted (run env1 [(1, AnswerChange "A"); (2, ClickSubmit true)]
                     (start env1 0 ∅)) = true) as Hm
    by (vm_compute; reflexivity).
  assert (∃ sub, inFlight (run env1 [(1, AnswerChange "A");
                                     (2, ClickSubmit true)]
                             (start env1 0 ∅)) = sub :: []) as [sub Hin]
    by (eexists; vm_compute; reflexivity).
  assert (timeouts (run env1 [(1, AnswerChange "A"); (2, ClickSubmit true)]
                      (start env1 0 ∅)) = []) as Hto
    by (vm_compute; reflexivity).
  assert (isDuplicateSubmission duplicate = true) as Hd
    by (vm_compute; reflexivity).
  destruct (duplicate_keeps_saved_answers env1 0 ∅
              [(1, AnswerChange "A"); (2, ClickSubmit true)] sub []
              duplicate 3 9 20 Hm Hin Hto Hd) as (H1 & H2 & _).
  split; [exact H1|]. rewrite H2. vm_compute. reflexivity.
Defined.
